(** * CSVPlugin: a table store over a tabular-data library

    Shallow embedding of [csvplugin.py].  The plugin holds zero or one
    data frame and offers three operations, [load_csv], [get_data] and
    [query_data].  All parsing and filtering is delegated to the tabular-data
    library (pandas); the plugin itself contributes the [None] checks, the
    [try]/[except Exception] boundaries, the diagnostics printed on failure
    and the re-enumeration of the records it returns.  The three methods are
    [async def] without any [await] in their bodies: awaiting one runs it to
    completion, so each is modelled as one computation on the plugin's state.

    The development has two layers.  The plugin is written once, over an
    arbitrary library [pd : Pandas]; the properties that only depend on the
    plugin's own control flow are proved for every such library.  A concrete
    library [Model.pandas], covering the fragment of CSV and of the condition
    language that the specification describes, instantiates the first layer
    for the properties that speak about what a condition selects. *)

From Stdlib Require Import ZArith List String Ascii Bool Arith Lia Permutation.
From Stdlib Require Import Decimal DecimalString DecimalFacts DecimalZ.
Import ListNotations.
Open Scope string_scope.

(** ** Python data *)

(** Scalars held in a table cell: an integer, a decimal number [m] x 10^[e],
    a string, or a missing value. *)
Inductive value : Type :=
| VInt (z : Z)
| VFloat (m e : Z)
| VStr (s : string)
| VNull.

(** An exception instance: its class name and what [str(e)] prints.  Every
    exception of the model is an instance of [Exception], which is what the
    plugin's handlers catch. *)
Record PyException : Type := { exc_class : string; exc_str : string }.

(** The result of running a piece of Python: a value, or a raised exception. *)
Inductive outcome (A : Type) : Type :=
| Return (a : A)
| Raise (e : PyException).

Arguments Return {A} a.
Arguments Raise {A} e.

(** A Python [dict] with string keys: insertion ordered, one entry per key;
    assigning to a key that is present keeps its position. *)
Definition dict : Type := list (string * value).

Fixpoint dict_set (k : string) (v : value) (d : dict) : dict :=
  match d with
  | [] => [(k, v)]
  | (k', v') :: d' =>
      if String.eqb k k' then (k', v) :: d' else (k', v') :: dict_set k v d'
  end.

(** [dict(zip(keys, values))]. *)
Definition dict_of_pairs (kvs : list (string * value)) : dict :=
  fold_left (fun d kv => dict_set (fst kv) (snd kv) d) kvs [].

(** [enumerate(l)], counting from [n]. *)
Fixpoint enumerate_from {A : Type} (n : nat) (l : list A) : list (nat * A) :=
  match l with
  | [] => []
  | x :: l' => (n, x) :: enumerate_from (S n) l'
  end.

Definition enumerate {A : Type} (l : list A) : list (nat * A) :=
  enumerate_from 0 l.

(** A file-like object, positioned at its start. *)
Record IOBase : Type := { readable : bool; content : string }.

(** What a caller may pass as [path]: a [str], an [IOBase] instance, or an
    object of any other type (of which only [type(path)] is ever used). *)
Inductive pyobj : Type :=
| PyStr (s : string)
| PyStream (f : IOBase)
| PyOther (type_repr : string).

(** [isinstance(path, (str, IOBase))] *)
Definition isinstance_str_or_IOBase (path : pyobj) : bool :=
  match path with
  | PyStr _ | PyStream _ => true
  | PyOther _ => false
  end.

(** [f"{type(path)}"] *)
Definition type_repr_of (path : pyobj) : string :=
  match path with
  | PyStr _ => "<class 'str'>"
  | PyStream _ => "<class '_io.TextIOWrapper'>"
  | PyOther r => r
  end.

(** [class CSVRow(TypedDict)] *)
Record CSVRow : Type := { index : nat; data : dict }.

(** ** The tabular-data library, as the plugin uses it

    Three entry points: [pd.read_csv(path)], [DataFrame.query(condition)]
    (which returns a new frame) and [DataFrame.to_dict(orient='records')]
    (which returns new dictionaries).  Each either returns or raises an
    instance of [Exception]; the file system [read_csv] looks into is part of
    the library value. *)
Record Pandas : Type := {
  DataFrame : Type;
  read_csv : pyobj -> outcome DataFrame;
  query : DataFrame -> string -> outcome DataFrame;
  to_dict_records : DataFrame -> list dict
}.

(** What [print(queried_data)] writes: [None] for [None]; for a list, what
    the interpreter's [repr] gives, which is taken as given. *)
Definition str_of_result (repr_rows : list CSVRow -> string)
           (r : option (list CSVRow)) : string :=
  match r with
  | None => "None"
  | Some views => repr_rows views
  end.

(** ** The plugin *)

Section Plugin.

Variable pd : Pandas.

(** [self]: the single attribute [dataframe], [None] or a frame. *)
Record CSVPlugin : Type := { dataframe : option (DataFrame pd) }.

(** The plugin object together with the operator-visible output channel. *)
Record machine : Type := { self : CSVPlugin; stdout : list string }.

(** [CSVPlugin.__init__] *)
Definition init : CSVPlugin := {| dataframe := None |}.

Definition fresh : machine := {| self := init; stdout := [] |}.

(** Computations that read and write the machine and may raise. *)
Definition M (A : Type) : Type := machine -> outcome A * machine.

Definition ret {A : Type} (a : A) : M A := fun m => (Return a, m).

Definition bind {A B : Type} (c : M A) (k : A -> M B) : M B :=
  fun m =>
    match c m with
    | (Return a, m') => k a m'
    | (Raise e, m') => (Raise e, m')
    end.

Definition raise {A : Type} (e : PyException) : M A := fun m => (Raise e, m).

(** A call into the library: it does not touch the machine. *)
Definition call {A : Type} (r : outcome A) : M A := fun m => (r, m).

(** [try: body except Exception as e: handler(e)].  What the body did to
    the machine before it raised stays done. *)
Definition try_except {A : Type} (body : M A) (handler : PyException -> M A) : M A :=
  fun m =>
    match body m with
    | (Return a, m') => (Return a, m')
    | (Raise e, m') => handler e m'
    end.

(** [self.dataframe] *)
Definition get_dataframe : M (option (DataFrame pd)) :=
  fun m => (Return (dataframe (self m)), m).

(** [self.dataframe = df] *)
Definition set_dataframe (df : DataFrame pd) : M unit :=
  fun m => (Return tt, {| self := {| dataframe := Some df |}; stdout := stdout m |}).

(** [print(s)]: each call adds one entry to [stdout], the text it was given,
    of however many lines that text is. *)
Definition print (s : string) : M unit :=
  fun m => (Return tt, {| self := self m; stdout := stdout m ++ [s] |}).

Notation "x <- c ;; k" := (bind c (fun x => k))
  (at level 61, c at next level, right associativity).
Notation "c ;;; k" := (bind c (fun _ => k))
  (at level 61, right associativity).

(** [[{"index": i, "data": row} for i, row in enumerate(data)]] *)
Definition row_views (records : list dict) : list CSVRow :=
  map (fun ir => {| index := fst ir; data := snd ir |}) (enumerate records).

(** [CSVPlugin.load_csv] *)
Definition load_csv (path : pyobj) : M bool :=
  try_except
    ((if isinstance_str_or_IOBase path
      then df <- call (read_csv pd path) ;; set_dataframe df
      else raise {| exc_class := "ValueError";
                    exc_str := "Expected str or file-like object, got "
                               ++ type_repr_of path |}) ;;;
     ret true)
    (fun e => print ("Error loading CSV: " ++ exc_str e) ;;; ret false).

(** [CSVPlugin.get_data] *)
Definition get_data : M (option (list CSVRow)) :=
  df <- get_dataframe ;;
  match df with
  | None => ret None
  | Some df =>
      let data := to_dict_records pd df in
      ret (Some (row_views data))
  end.

(** [CSVPlugin.query_data] *)
Definition query_data (condition : string) : M (option (list CSVRow)) :=
  df <- get_dataframe ;;
  match df with
  | None => ret None
  | Some df =>
      try_except
        (queried_data <- call (query pd df condition) ;;
         let data := to_dict_records pd queried_data in
         ret (Some (row_views data)))
        (fun e => print ("Error querying data: " ++ exc_str e) ;;; ret None)
  end.

(** [main]: a new plugin, one load whose answer is not looked at, the two
    reads, and the second read's answer printed. *)
Definition main (repr_rows : list CSVRow -> string) : M unit :=
  fun m =>
    (load_csv (PyStr "diabetes.csv") ;;;
     data <- get_data ;;
     queried_data <- query_data "Age > 50" ;;
     print (str_of_result repr_rows queried_data))
    {| self := init; stdout := stdout m |}.

(** *** Sessions: a caller invoking operations one after the other *)

Inductive request : Type :=
| LoadCsv (path : pyobj)
| GetData
| QueryData (condition : string).

Inductive response : Type :=
| Loaded (ok : bool)
| Rows (r : option (list CSVRow))
| Fault (e : PyException).

Definition serve (rq : request) (m : machine) : response * machine :=
  match rq with
  | LoadCsv path =>
      match load_csv path m with
      | (Return b, m') => (Loaded b, m')
      | (Raise e, m') => (Fault e, m')
      end
  | GetData =>
      match get_data m with
      | (Return r, m') => (Rows r, m')
      | (Raise e, m') => (Fault e, m')
      end
  | QueryData c =>
      match query_data c m with
      | (Return r, m') => (Rows r, m')
      | (Raise e, m') => (Fault e, m')
      end
  end.

Fixpoint session (rqs : list request) (m : machine) : list response * machine :=
  match rqs with
  | [] => ([], m)
  | rq :: rqs' =>
      let (r, m') := serve rq m in
      let (rs, m'') := session rqs' m' in
      (r :: rs, m'')
  end.

End Plugin.

Arguments dataframe {pd} _.
Arguments self {pd} _.
Arguments stdout {pd} _.
Arguments Build_machine {pd} _ _.
Arguments Build_CSVPlugin {pd} _.

(** ** A concrete library *)

(** Modelled from the spec: the tabular-data library (pandas), an external
    collaborator whose code is not part of the repository.  The model covers
    the fragment the specification describes: comma-delimited text whose
    first line is the header, integer, decimal and string columns, and
    conditions made of comparisons between column names and literals,
    combined with [and], [or], [not] and parentheses.  Decimal numbers are
    kept and compared exactly, where the library rounds them to binary
    floating point.  Quoted CSV fields and the rest of the library's
    expression language are outside the model. *)
Module Model.

(** *** Frames *)

Inductive dtype : Type := int64 | float64 | object.

(** A frame: named, typed columns and labelled rows.  The label is the
    row's entry in the frame's index; it is what a filter carries over and
    what [to_dict(orient='records')] drops. *)
Record Frame : Type := {
  columns : list (string * dtype);
  rows : list (nat * list value)
}.

Definition is_numeric (dt : dtype) : bool :=
  match dt with
  | int64 | float64 => true
  | object => false
  end.

(** Numbers compare with numbers and strings with strings. *)
Definition comparable (a b : dtype) : bool := Bool.eqb (is_numeric a) (is_numeric b).

(** *** Reading CSV text: lines and fields *)

(** The pieces of [s] between the occurrences of [sep]. *)
Fixpoint split (sep : ascii) (s : string) : list string :=
  match s with
  | EmptyString => [EmptyString]
  | String c s' =>
      if Ascii.eqb c sep then EmptyString :: split sep s'
      else match split sep s' with
           | [] => [String c EmptyString]
           | piece :: pieces => String c piece :: pieces
           end
  end.

Definition is_empty (s : string) : bool :=
  match s with EmptyString => true | _ => false end.

Definition LF : ascii := ascii_of_nat 10.

Definition newline : string := String LF EmptyString.

(** Lines of the text, blank lines skipped. *)
Definition csv_lines (text : string) : list string :=
  filter (fun l => negb (is_empty l)) (split LF text).

Definition csv_fields (line : string) : list string := split "," line.

(** *** Conditions *)

Inductive cmpop : Type := Gt | Ge | Lt | Le | Eq | Ne.

Inductive operand : Type :=
| Col (name : string)
| IntLit (z : Z)
| DecLit (m e : Z)
| StrLit (s : string).

Inductive expr : Type :=
| Cmp (op : cmpop) (l r : operand)
| And (a b : expr)
| Or (a b : expr)
| Not (a : expr).

Inductive token : Type :=
| TName (s : string)
| TInt (z : Z)
| TDec (m e : Z)
| TStr (s : string)
| TCmp (op : cmpop)
| TAnd | TOr | TNot
| TLParen | TRParen.

(** **** Lexing, one character at a time *)

Inductive lexstate : Type :=
| LStart
| LName (acc : string)
| LInt (neg : bool) (digits : uint)
| LFrac (neg : bool) (digits : uint) (places : nat)
| LExpSign (neg : bool) (digits : uint) (places : nat)
| LExp (neg : bool) (digits : uint) (places : nat) (eneg : bool) (edigits : uint)
| LStr (quote : ascii) (acc : string)
| LOp (c : ascii).

Definition between (lo hi : nat) (c : ascii) : bool :=
  Nat.leb lo (nat_of_ascii c) && Nat.leb (nat_of_ascii c) hi.

Definition is_space (c : ascii) : bool :=
  Ascii.eqb c " " || Ascii.eqb c (ascii_of_nat 9).

Definition is_digit (c : ascii) : bool := between 48 57 c.

Definition is_name_start (c : ascii) : bool :=
  between 65 90 c || between 97 122 c || Ascii.eqb c "_".

Definition is_name_char (c : ascii) : bool := is_name_start c || is_digit c.

Definition double_quote : ascii := ascii_of_nat 34.

(** The reserved words of the language conditions are written in. *)
Definition keywords : list string :=
  ["False"; "None"; "True"; "and"; "as"; "assert"; "async"; "await"; "break";
   "class"; "continue"; "def"; "del"; "elif"; "else"; "except"; "finally";
   "for"; "from"; "global"; "if"; "import"; "in"; "is"; "lambda"; "nonlocal";
   "not"; "or"; "pass"; "raise"; "return"; "try"; "while"; "with"; "yield"].

Definition is_keyword (s : string) : bool := existsb (String.eqb s) keywords.

(** [and], [or] and [not] are the operators of the model; no other reserved
    word can stand in a condition. *)
Definition name_token (s : string) : option token :=
  if String.eqb s "and" then Some TAnd
  else if String.eqb s "or" then Some TOr
  else if String.eqb s "not" then Some TNot
  else if is_keyword s then None
  else Some (TName s).

Definition nonnil (d : uint) : bool :=
  match d with Nil => false | _ => true end.

(** The digits are accumulated least significant first. *)
Definition signed (neg : bool) (digits : uint) : Z :=
  Z.of_int (if neg then Neg (Decimal.rev digits) else Pos (Decimal.rev digits)).

Definition int_token (neg : bool) (digits : uint) : option token :=
  match digits with
  | Nil => None
  | _ => Some (TInt (Z.of_int (if neg then Neg (Decimal.rev digits) else Pos (Decimal.rev digits))))
  end.

(** A decimal literal whose digits include [places] digits of fraction and
    which carries the exponent [e]. *)
Definition dec_token (neg : bool) (digits : uint) (places : nat) (e : Z) : token :=
  TDec (signed neg digits) (e - Z.of_nat places).

Definition frac_token (neg : bool) (digits : uint) (places : nat) : option token :=
  match places with
  | 0 => None
  | S _ => Some (dec_token neg digits places 0)
  end.

Definition exp_token (neg : bool) (digits : uint) (places : nat)
           (eneg : bool) (edigits : uint) : option token :=
  match edigits with
  | Nil => None
  | _ => Some (dec_token neg digits places (signed eneg edigits))
  end.

Definition op_token (c : ascii) (with_eq : bool) : option token :=
  if Ascii.eqb c ">" then Some (TCmp (if with_eq then Ge else Gt))
  else if Ascii.eqb c "<" then Some (TCmp (if with_eq then Le else Lt))
  else if Ascii.eqb c "=" then (if with_eq then Some (TCmp Eq) else None)
  else if Ascii.eqb c "!" then (if with_eq then Some (TCmp Ne) else None)
  else None.

(** A character met between tokens. *)
Definition start (c : ascii) : option (list token * lexstate) :=
  if is_name_start c then Some ([], LName (String c EmptyString))
  else if is_space c then Some ([], LStart)
  else if is_digit c then
    option_map (fun d => ([], LInt false d)) (uint_of_char c (Some Nil))
  else if Ascii.eqb c "-" then Some ([], LInt true Nil)
  else if Ascii.eqb c "(" then Some ([TLParen], LStart)
  else if Ascii.eqb c ")" then Some ([TRParen], LStart)
  else if Ascii.eqb c double_quote || Ascii.eqb c "'" then Some ([], LStr c EmptyString)
  else if Ascii.eqb c ">" || Ascii.eqb c "<" || Ascii.eqb c "=" || Ascii.eqb c "!"
       then Some ([], LOp c)
  else None.

Definition emit_then_start (t : option token) (c : ascii) : option (list token * lexstate) :=
  match t, start c with
  | Some t, Some (ts, st) => Some (t :: ts, st)
  | _, _ => None
  end.

Definition step (st : lexstate) (c : ascii) : option (list token * lexstate) :=
  match st with
  | LStart => start c
  | LName acc =>
      if is_name_char c then Some ([], LName (acc ++ String c EmptyString))
      else emit_then_start (name_token acc) c
  | LInt neg digits =>
      match uint_of_char c (Some digits) with
      | Some digits' => Some ([], LInt neg digits')
      | None =>
          if Ascii.eqb c "." && nonnil digits then Some ([], LFrac neg digits 0)
          else if Ascii.eqb c "e" && nonnil digits then Some ([], LExpSign neg digits 0)
          else emit_then_start (int_token neg digits) c
      end
  | LFrac neg digits places =>
      match uint_of_char c (Some digits) with
      | Some digits' => Some ([], LFrac neg digits' (S places))
      | None =>
          if Ascii.eqb c "e" && negb (Nat.eqb places 0)
          then Some ([], LExpSign neg digits places)
          else emit_then_start (frac_token neg digits places) c
      end
  | LExpSign neg digits places =>
      if Ascii.eqb c "+" then Some ([], LExp neg digits places false Nil)
      else if Ascii.eqb c "-" then Some ([], LExp neg digits places true Nil)
      else option_map (fun d => ([], LExp neg digits places false d))
                      (uint_of_char c (Some Nil))
  | LExp neg digits places eneg edigits =>
      match uint_of_char c (Some edigits) with
      | Some edigits' => Some ([], LExp neg digits places eneg edigits')
      | None => emit_then_start (exp_token neg digits places eneg edigits) c
      end
  | LStr quote acc =>
      if Ascii.eqb c quote then Some ([TStr acc], LStart)
      else Some ([], LStr quote (acc ++ String c EmptyString))
  | LOp o =>
      if Ascii.eqb c "=" then option_map (fun t => ([t], LStart)) (op_token o true)
      else emit_then_start (op_token o false) c
  end.

(** What is pending when the text ends. *)
Definition finish (st : lexstate) : option (list token) :=
  match st with
  | LStart => Some []
  | LName acc => option_map (fun t => [t]) (name_token acc)
  | LInt neg digits => option_map (fun t => [t]) (int_token neg digits)
  | LFrac neg digits places => option_map (fun t => [t]) (frac_token neg digits places)
  | LExpSign _ _ _ => None
  | LExp neg digits places eneg edigits =>
      option_map (fun t => [t]) (exp_token neg digits places eneg edigits)
  | LStr _ _ => None
  | LOp o => option_map (fun t => [t]) (op_token o false)
  end.

Fixpoint lex_from (st : lexstate) (s : string) : option (list token) :=
  match s with
  | EmptyString => finish st
  | String c s' =>
      match step st c with
      | None => None
      | Some (ts, st') => option_map (List.app ts) (lex_from st' s')
      end
  end.

Definition lex (s : string) : option (list token) := lex_from LStart s.

(** *** Reading CSV text: typed columns *)

(** An integer literal: an optional minus sign and at least one digit. *)
Definition int_of_field (f : string) : option Z :=
  match f with
  | EmptyString => None
  | String "-" EmptyString => None
  | _ => option_map Z.of_int (NilZero.int_of_string f)
  end.

Definition is_some {A : Type} (o : option A) : bool :=
  match o with Some _ => true | None => false end.

(** The integers of a 64-bit column. *)
Definition in_int64 (z : Z) : bool := (- 2 ^ 63 <=? z)%Z && (z <? 2 ^ 63)%Z.

Fixpoint has_space (s : string) : bool :=
  match s with
  | EmptyString => false
  | String c s' => is_space c || has_space s'
  end.

(** A decimal literal: digits with a fraction, an exponent or both, written
    without blanks. *)
Definition dec_of_field (f : string) : option (Z * Z) :=
  if has_space f then None
  else match lex_from LStart f with
       | Some [TDec m e] => Some (m, e)
       | _ => None
       end.

(** A number the reader takes: an integer literal within 64 bits, or a
    decimal literal whose digits, read as one integer, are within 64 bits. *)
Definition num_of_field (f : string) : option (Z * Z) :=
  match int_of_field f with
  | Some z => if in_int64 z then Some (z, 0%Z) else None
  | None =>
      match dec_of_field f with
      | Some (m, e) => if in_int64 m then Some (m, e) else None
      | None => None
      end
  end.

Definition is_int64_field (f : string) : bool :=
  match int_of_field f with
  | Some z => in_int64 z
  | None => false
  end.

(** The type of column [j], when there is at least one record: [int64] when
    every record holds an integer literal there and all are within 64 bits
    ([object] when one is not); [float64] when every record holds a number
    and one of them is a decimal literal; [object] otherwise. *)
Definition infer_dtype (records : list (list string)) (j : nat) : dtype :=
  match records with
  | [] => object
  | _ =>
      if forallb (fun r => is_some (int_of_field (nth j r EmptyString))) records then
        if forallb (fun r => is_int64_field (nth j r EmptyString)) records
        then int64 else object
      else if forallb (fun r => is_some (num_of_field (nth j r EmptyString))) records
      then float64 else object
  end.

Definition convert (dt : dtype) (f : string) : value :=
  match dt with
  | int64 => match int_of_field f with Some z => VInt z | None => VNull end
  | float64 => match num_of_field f with Some (m, e) => VFloat m e | None => VNull end
  | object => if is_empty f then VNull else VStr f
  end.

Definition EmptyDataError : PyException :=
  {| exc_class := "EmptyDataError"; exc_str := "No columns to parse from file" |}.

Definition ParserError : PyException :=
  {| exc_class := "ParserError"; exc_str := "Error tokenizing data" |}.

(** Modelled from the spec: [pd.read_csv] on the text of a file or stream.
    The first non-blank line is the header; every other non-blank line is a
    data row and must have as many fields as the header. *)
Definition read_csv_text (text : string) : outcome Frame :=
  match csv_lines text with
  | [] => Raise EmptyDataError
  | header :: lines =>
      let names := csv_fields header in
      let records := map csv_fields lines in
      if forallb (fun r => Nat.eqb (List.length r) (List.length names)) records then
        let dtypes := map (infer_dtype records) (seq 0 (List.length names)) in
        Return {| columns := combine names dtypes;
                  rows := enumerate (map (fun r => map (fun df => convert (fst df) (snd df))
                                                       (combine dtypes r)) records) |}
      else Raise ParserError
  end.

(** **** Parsing: [or] binds loosest, then [and], then [not] *)

Definition parse_operand (ts : list token) : option (operand * list token) :=
  match ts with
  | TName n :: ts' => Some (Col n, ts')
  | TInt z :: ts' => Some (IntLit z, ts')
  | TDec m e :: ts' => Some (DecLit m e, ts')
  | TStr s :: ts' => Some (StrLit s, ts')
  | _ => None
  end.

Definition parse_cmp (ts : list token) : option (expr * list token) :=
  match parse_operand ts with
  | Some (l, TCmp op :: ts') =>
      match parse_operand ts' with
      | Some (r, ts'') => Some (Cmp op l r, ts'')
      | None => None
      end
  | _ => None
  end.

Fixpoint parse_or (fuel : nat) (ts : list token) : option (expr * list token) :=
  match fuel with
  | 0 => None
  | S fuel' =>
      match parse_and fuel' ts with
      | Some (a, TOr :: ts') =>
          match parse_or fuel' ts' with
          | Some (b, ts'') => Some (Or a b, ts'')
          | None => None
          end
      | r => r
      end
  end
with parse_and (fuel : nat) (ts : list token) : option (expr * list token) :=
  match fuel with
  | 0 => None
  | S fuel' =>
      match parse_not fuel' ts with
      | Some (a, TAnd :: ts') =>
          match parse_and fuel' ts' with
          | Some (b, ts'') => Some (And a b, ts'')
          | None => None
          end
      | r => r
      end
  end
with parse_not (fuel : nat) (ts : list token) : option (expr * list token) :=
  match fuel with
  | 0 => None
  | S fuel' =>
      match ts with
      | TNot :: ts' =>
          match parse_not fuel' ts' with
          | Some (a, ts'') => Some (Not a, ts'')
          | None => None
          end
      | TLParen :: ts' =>
          match parse_or fuel' ts' with
          | Some (a, TRParen :: ts'') => Some (a, ts'')
          | _ => None
          end
      | _ => parse_cmp ts
      end
  end.

(** Each token starts at most three nested calls, so this fuel does not run
    out before the tokens do ([parse_fuel_independent]). *)
Definition parse (ts : list token) : option expr :=
  match parse_or (3 * List.length ts + 3) ts with
  | Some (e, []) => Some e
  | _ => None
  end.

Definition parse_condition (condition : string) : option expr :=
  match lex condition with
  | Some ts => parse ts
  | None => None
  end.

(** **** Typing and evaluation *)

(** Position and type of the first column called [name]. *)
Fixpoint find_column (cols : list (string * dtype)) (name : string) : option (nat * dtype) :=
  match cols with
  | [] => None
  | (n, dt) :: cols' =>
      if String.eqb name n then Some (0, dt)
      else option_map (fun p => (S (fst p), snd p)) (find_column cols' name)
  end.

Definition UndefinedVariableError (name : string) : PyException :=
  {| exc_class := "UndefinedVariableError";
     exc_str := "name '" ++ name ++ "' is not defined" |}.

Definition TypeError : PyException :=
  {| exc_class := "TypeError";
     exc_str := "comparison not supported between a number and a string" |}.

Definition SyntaxError : PyException :=
  {| exc_class := "SyntaxError"; exc_str := "invalid syntax" |}.

Definition operand_dtype (cols : list (string * dtype)) (o : operand) : outcome dtype :=
  match o with
  | Col name =>
      match find_column cols name with
      | Some (_, dt) => Return dt
      | None => Raise (UndefinedVariableError name)
      end
  | IntLit _ => Return int64
  | DecLit _ _ => Return float64
  | StrLit _ => Return object
  end.

(** Names are resolved and comparisons typed over the whole condition
    before any row is looked at. *)
Fixpoint check (cols : list (string * dtype)) (e : expr) : outcome unit :=
  match e with
  | Cmp _ l r =>
      match operand_dtype cols l with
      | Raise ex => Raise ex
      | Return tl =>
          match operand_dtype cols r with
          | Raise ex => Raise ex
          | Return tr => if comparable tl tr then Return tt else Raise TypeError
          end
      end
  | And a b | Or a b =>
      match check cols a with
      | Raise ex => Raise ex
      | Return _ => check cols b
      end
  | Not a => check cols a
  end.

Definition operand_value (cols : list (string * dtype)) (o : operand)
           (cells : list value) : value :=
  match o with
  | Col name =>
      match find_column cols name with
      | Some (i, _) => nth i cells VNull
      | None => VNull
      end
  | IntLit z => VInt z
  | DecLit m e => VFloat m e
  | StrLit s => VStr s
  end.

Definition compare_Z (op : cmpop) (a b : Z) : bool :=
  match op with
  | Gt => (b <? a)%Z | Ge => (b <=? a)%Z
  | Lt => (a <? b)%Z | Le => (a <=? b)%Z
  | Eq => (a =? b)%Z | Ne => negb (a =? b)%Z
  end.

Definition compare_string (op : cmpop) (a b : string) : bool :=
  match op with
  | Gt => String.ltb b a | Ge => String.leb b a
  | Lt => String.ltb a b | Le => String.leb a b
  | Eq => String.eqb a b | Ne => negb (String.eqb a b)
  end.

(** [m1] x 10^[e1] against [m2] x 10^[e2], both brought to the smaller
    exponent. *)
Definition compare_num (op : cmpop) (m1 e1 m2 e2 : Z) : bool :=
  compare_Z op (m1 * 10 ^ (e1 - Z.min e1 e2))%Z (m2 * 10 ^ (e2 - Z.min e1 e2))%Z.

(** Numbers compare numerically, strings lexicographically; a missing
    value is unequal to everything and in no order with anything. *)
Definition compare_values (op : cmpop) (v1 v2 : value) : bool :=
  match v1, v2 with
  | VInt a, VInt b => compare_Z op a b
  | VInt a, VFloat m e => compare_num op a 0 m e
  | VFloat m e, VInt b => compare_num op m e b 0
  | VFloat m1 e1, VFloat m2 e2 => compare_num op m1 e1 m2 e2
  | VStr a, VStr b => compare_string op a b
  | _, _ => match op with Ne => true | _ => false end
  end.

Fixpoint holds (cols : list (string * dtype)) (e : expr) (cells : list value) : bool :=
  match e with
  | Cmp op l r => compare_values op (operand_value cols l cells) (operand_value cols r cells)
  | And a b => holds cols a cells && holds cols b cells
  | Or a b => holds cols a cells || holds cols b cells
  | Not a => negb (holds cols a cells)
  end.

(** Modelled from the spec: the predicate a condition denotes over the rows
    of a frame, when the condition is well formed for that frame. *)
Definition compile (df : Frame) (condition : string) : outcome (list value -> bool) :=
  match parse_condition condition with
  | None => Raise SyntaxError
  | Some e =>
      match check (columns df) e with
      | Raise ex => Raise ex
      | Return _ => Return (holds (columns df) e)
      end
  end.

Definition select (p : list value -> bool) (df : Frame) : Frame :=
  {| columns := columns df; rows := filter (fun r => p (snd r)) (rows df) |}.

(** Modelled from the spec: [DataFrame.query(condition)], a new frame with
    the rows on which the condition holds, in their order and with their
    labels; it raises on a condition that is not well formed and leaves the
    receiver as it is. *)
Definition query_frame (df : Frame) (condition : string) : outcome Frame :=
  match compile df condition with
  | Raise ex => Raise ex
  | Return p => Return (select p df)
  end.

(** The mapping from column name to cell that a row is turned into. *)
Definition row_dict (df : Frame) (r : nat * list value) : dict :=
  dict_of_pairs (combine (map fst (columns df)) (snd r)).

(** Modelled from the spec: [DataFrame.to_dict(orient='records')], one
    mapping from column name to value per row, in row order. *)
Definition records (df : Frame) : list dict := map (row_dict df) (rows df).

(** *** Files and streams *)

Definition filesystem : Type := string -> option string.

Definition FileNotFoundError (path : string) : PyException :=
  {| exc_class := "FileNotFoundError";
     exc_str := "[Errno 2] No such file or directory: '" ++ path ++ "'" |}.

Definition UnsupportedOperation : PyException :=
  {| exc_class := "UnsupportedOperation"; exc_str := "not readable" |}.

Definition InvalidPath : PyException :=
  {| exc_class := "ValueError"; exc_str := "Invalid file path or buffer object type" |}.

Definition read_csv_in (fs : filesystem) (path : pyobj) : outcome Frame :=
  match path with
  | PyStr p =>
      match fs p with
      | Some text => read_csv_text text
      | None => Raise (FileNotFoundError p)
      end
  | PyStream f =>
      if readable f then read_csv_text (content f) else Raise UnsupportedOperation
  | PyOther _ => Raise InvalidPath
  end.

(** Modelled from the spec: the library over a given file system. *)
Definition pandas (fs : filesystem) : Pandas :=
  {| DataFrame := Frame;
     read_csv := read_csv_in fs;
     query := query_frame;
     to_dict_records := records |}.

(** *** Well-formed frames and conditions *)






Definition mentions (o : operand) (name : string) : Prop := o = Col name.

(** The condition refers to a name that is not a column. *)
Inductive unknown_column (cols : list (string * dtype)) : expr -> Prop :=
| uc_left op l r name :
    mentions l name -> find_column cols name = None -> unknown_column cols (Cmp op l r)
| uc_right op l r name :
    mentions r name -> find_column cols name = None -> unknown_column cols (Cmp op l r)
| uc_and_l a b : unknown_column cols a -> unknown_column cols (And a b)
| uc_and_r a b : unknown_column cols b -> unknown_column cols (And a b)
| uc_or_l a b : unknown_column cols a -> unknown_column cols (Or a b)
| uc_or_r a b : unknown_column cols b -> unknown_column cols (Or a b)
| uc_not a : unknown_column cols a -> unknown_column cols (Not a).

(** The condition compares a number with a string somewhere. *)
Inductive type_mismatch (cols : list (string * dtype)) : expr -> Prop :=
| tm_cmp op l r tl tr :
    operand_dtype cols l = Return tl -> operand_dtype cols r = Return tr ->
    comparable tl tr = false -> type_mismatch cols (Cmp op l r)
| tm_and_l a b : type_mismatch cols a -> type_mismatch cols (And a b)
| tm_and_r a b : type_mismatch cols b -> type_mismatch cols (And a b)
| tm_or_l a b : type_mismatch cols a -> type_mismatch cols (Or a b)
| tm_or_r a b : type_mismatch cols b -> type_mismatch cols (Or a b)
| tm_not a : type_mismatch cols a -> type_mismatch cols (Not a).

(** The three ways a condition can be malformed for a frame. *)
Inductive malformed (df : Frame) (condition : string) : Prop :=
| bad_syntax : parse_condition condition = None -> malformed df condition
| bad_name e :
    parse_condition condition = Some e -> unknown_column (columns df) e ->
    malformed df condition
| bad_types e :
    parse_condition condition = Some e -> type_mismatch (columns df) e ->
    malformed df condition.

(** A condition is well formed for a frame when it denotes a predicate. *)
Definition well_formed (df : Frame) (condition : string) (p : list value -> bool) : Prop :=
  compile df condition = Return p.

(** [str(x)] for an integer. *)
Definition str_of_int (x : Z) : string := NilZero.string_of_int (Z.to_int x).

(** A threshold, as a caller has it: an integer or a floating-point number.
    A finite floating-point number is given by the decimal text [str]
    writes for it: a sign, integer digits, and a fraction, an exponent or
    both ([4.5], [100.0], [1e+16], [1.5e-07]); the other floating-point
    values are the two infinities and not-a-number. *)
Inductive threshold : Type :=
| IntX (z : Z)
| FloatX (neg : bool) (int_digits : uint) (frac_digits : option uint)
         (exponent : option (bool * uint))
| InfX (neg : bool)
| NanX.

Definition str_of_fraction (frac_digits : option uint) : string :=
  match frac_digits with
  | Some f => String "." (NilEmpty.string_of_uint f)
  | None => EmptyString
  end.

Definition str_of_exponent (exponent : option (bool * uint)) : string :=
  match exponent with
  | Some (eneg, ed) =>
      String "e" (String (if eneg then "-" else "+")%char (NilEmpty.string_of_uint ed))
  | None => EmptyString
  end.

Definition str_of_sign (neg : bool) : string :=
  if neg then "-" else EmptyString.

(** [str(x)] for a threshold. *)
Definition str_of_threshold (x : threshold) : string :=
  match x with
  | IntX z => str_of_int z
  | FloatX neg ip fp ex =>
      str_of_sign neg ++ NilEmpty.string_of_uint ip ++ str_of_fraction fp ++ str_of_exponent ex
  | InfX neg => str_of_sign neg ++ "inf"
  | NanX => "nan"
  end.


(** The conditions ["col > X"] and ["col <= X"]. *)
Definition gt_condition (col : string) (x : threshold) : string :=
  col ++ " > " ++ str_of_threshold x.
Definition le_condition (col : string) (x : threshold) : string :=
  col ++ " <= " ++ str_of_threshold x.


(** *** The example of the specification *)

Definition example_text : string :=
  "a,b" ++ newline ++ "1,x" ++ newline ++ "5,y" ++ newline ++ "10,z" ++ newline.

Definition example_fs : filesystem :=
  fun p => if String.eqb p "data.csv" then Some example_text else None.

Definition example_pandas : Pandas := pandas example_fs.

Definition example_frame : Frame :=
  {| columns := [("a", int64); ("b", object)];
     rows := [(0, [VInt 1; VStr "x"]); (1, [VInt 5; VStr "y"]); (2, [VInt 10; VStr "z"])] |}.













(** The plugin after [load_csv('data.csv')]. *)
Definition example_machine : machine example_pandas :=
  snd (load_csv example_pandas (PyStr "data.csv") (fresh example_pandas)).

End Model.

Import Model.

(** ** Vocabulary of the statements *)

(** The result an operation hands back to its caller. *)
Definition result {pd : Pandas} {A : Type} (r : outcome A * machine pd) : outcome A := fst r.

(** The machine an operation leaves behind. *)
Definition after {pd : Pandas} {A : Type} (r : outcome A * machine pd) : machine pd := snd r.

(** The table the plugin holds. *)
Definition table {pd : Pandas} (m : machine pd) : option (DataFrame pd) := dataframe (self m).

(** The source is of an accepted kind and the library parses it. *)
Definition parses_as_csv (pd : Pandas) (path : pyobj) : Prop :=
  isinstance_str_or_IOBase path = true /\ exists df, read_csv pd path = Return df.

(** The source is of a wrong kind, or the library fails on it. *)
Definition fails_to_parse (pd : Pandas) (path : pyobj) : Prop :=
  isinstance_str_or_IOBase path = false \/ exists e, read_csv pd path = Raise e.

(** No [load_csv] of the session answered [True]. *)
Definition no_successful_load (rs : list response) : Prop := ~ In (Loaded true) rs.



(** The response is of the kind the request asks for. *)
Definition answers (rq : request) (r : response) : Prop :=
  match rq, r with
  | LoadCsv _, Loaded _ => True
  | GetData, Rows _ => True
  | QueryData _, Rows _ => True
  | _, _ => False
  end.

Definition is_failed_load (r : response) : bool :=
  match r with
  | Loaded false => true
  | _ => false
  end.

Definition is_load_request (rq : request) : bool :=
  match rq with
  | LoadCsv _ => true
  | _ => false
  end.

Definition is_load_response (r : response) : bool :=
  match r with
  | Loaded _ => true
  | _ => false
  end.

(** The two kinds of message the plugin prints. *)
Definition is_load_diagnostic (line : string) : bool :=
  String.prefix "Error loading CSV: " line.

Definition is_query_diagnostic (line : string) : bool :=
  String.prefix "Error querying data: " line.

Definition is_diagnostic (line : string) : bool :=
  is_load_diagnostic line || is_query_diagnostic line.

(** A file system for [main]: a table with an [Age] column. *)
Definition diabetes_text : string :=
  "Age,Outcome" ++ newline ++ "50,1" ++ newline ++ "51,0" ++ newline ++ "63,1" ++ newline.

Definition diabetes_fs : filesystem :=
  fun p => if String.eqb p "diabetes.csv" then Some diabetes_text else None.

Definition diabetes_frame : Frame :=
  {| columns := [("Age", int64); ("Outcome", int64)];
     rows := [(0, [VInt 50; VInt 1]); (1, [VInt 51; VInt 0]); (2, [VInt 63; VInt 1])] |}.

(** A rendering of row views, for values that need no escaping. *)
Definition repr_value (v : value) : string :=
  match v with
  | VInt z => str_of_int z
  | VFloat m e => str_of_int m ++ "e" ++ str_of_int e
  | VStr s => "'" ++ s ++ "'"
  | VNull => "nan"
  end.

Definition repr_dict (d : dict) : string :=
  "{" ++ String.concat ", " (map (fun kv => "'" ++ fst kv ++ "': " ++ repr_value (snd kv)) d)
      ++ "}".

Definition repr_views (views : list CSVRow) : string :=
  "[" ++ String.concat ", "
           (map (fun v => "{'index': " ++ str_of_int (Z.of_nat (index v))
                          ++ ", 'data': " ++ repr_dict (data v) ++ "}") views)
      ++ "]".

(** * Properties of the plugin, for every library *)

Lemma load_csv_unfold (pd : Pandas) (path : pyobj) (m : machine pd) :
  load_csv pd path m =
  if isinstance_str_or_IOBase path then
    match read_csv pd path with
    | Return df =>
        (Return true, {| self := {| dataframe := Some df |}; stdout := stdout m |})
    | Raise e =>
        (Return false,
         {| self := self m; stdout := stdout m ++ ["Error loading CSV: " ++ exc_str e] |})
    end
  else
    (Return false,
     {| self := self m;
        stdout := stdout m ++ ["Error loading CSV: Expected str or file-like object, got "
                               ++ type_repr_of path] |}).
Proof.
  unfold load_csv, try_except, bind, call, raise, set_dataframe, print, ret.
  destruct (isinstance_str_or_IOBase path); simpl.
  - destruct (read_csv pd path); reflexivity.
  - reflexivity.
Qed.

Lemma get_data_unfold (pd : Pandas) (m : machine pd) :
  get_data pd m =
  (Return (option_map (fun df => row_views (to_dict_records pd df)) (table m)), m).
Proof.
  unfold get_data, bind, get_dataframe, ret, table.
  destruct (dataframe (self m)); reflexivity.
Qed.

Lemma query_data_unfold (pd : Pandas) (condition : string) (m : machine pd) :
  query_data pd condition m =
  match table m with
  | None => (Return None, m)
  | Some df =>
      match query pd df condition with
      | Return queried => (Return (Some (row_views (to_dict_records pd queried))), m)
      | Raise e =>
          (Return None,
           {| self := self m;
              stdout := stdout m ++ ["Error querying data: " ++ exc_str e] |})
      end
  end.
Proof.
  unfold query_data, bind, get_dataframe, try_except, call, print, ret, table.
  destruct (dataframe (self m)) as [df|]; simpl; [|reflexivity].
  destruct (query pd df condition); reflexivity.
Qed.

(** A load that answers [False] has not assigned [self.dataframe]. *)
Lemma load_csv_false_table (pd : Pandas) (path : pyobj) (m m' : machine pd) :
  load_csv pd path m = (Return false, m') -> table m' = table m.
Proof.
  rewrite load_csv_unfold.
  destruct (isinstance_str_or_IOBase path).
  - destruct (read_csv pd path); intros H; inversion H; reflexivity.
  - intros H; inversion H; reflexivity.
Qed.

Lemma get_data_table (pd : Pandas) (m : machine pd) : after (get_data pd m) = m.
Proof. rewrite get_data_unfold. reflexivity. Qed.

Lemma query_data_table (pd : Pandas) (c : string) (m : machine pd) :
  table (after (query_data pd c m)) = table m.
Proof.
  rewrite query_data_unfold. unfold after.
  destruct (table m) as [df|] eqn:E; [|assumption].
  destruct (query pd df c); simpl; assumption.
Qed.

(** The answers of the two read operations are functions of the table. *)
Lemma get_data_result (pd : Pandas) (m : machine pd) :
  result (get_data pd m) =
  Return (option_map (fun df => row_views (to_dict_records pd df)) (table m)).
Proof. rewrite get_data_unfold. reflexivity. Qed.

Lemma query_data_result (pd : Pandas) (c : string) (m : machine pd) :
  result (query_data pd c m) =
  Return match table m with
         | None => None
         | Some df =>
             match query pd df c with
             | Return queried => Some (row_views (to_dict_records pd queried))
             | Raise _ => None
             end
         end.
Proof.
  rewrite query_data_unfold. unfold result.
  destruct (table m) as [df|]; [|reflexivity].
  destruct (query pd df c); reflexivity.
Qed.

(** [enumerate] numbers the elements from where it starts and keeps them in order. *)
Lemma enumerate_from_fst {A : Type} (l : list A) (n : nat) :
  map fst (enumerate_from n l) = seq n (List.length l).
Proof.
  revert n. induction l as [|x l IH]; intros n; simpl; [reflexivity|].
  now rewrite IH.
Qed.

Lemma enumerate_from_snd {A : Type} (l : list A) (n : nat) :
  map snd (enumerate_from n l) = l.
Proof.
  revert n. induction l as [|x l IH]; intros n; simpl; [reflexivity|].
  now rewrite IH.
Qed.

Lemma row_views_index (recs : list dict) :
  map index (row_views recs) = seq 0 (List.length recs).
Proof.
  unfold row_views, enumerate. rewrite map_map. simpl.
  apply (enumerate_from_fst recs 0).
Qed.

Lemma row_views_data (recs : list dict) : map data (row_views recs) = recs.
Proof.
  unfold row_views, enumerate. rewrite map_map. simpl.
  apply (enumerate_from_snd recs 0).
Qed.

Lemma row_views_length (recs : list dict) :
  List.length (row_views recs) = List.length recs.
Proof. rewrite <- (row_views_data recs) at 2. now rewrite length_map. Qed.

(** ** Loading *)

(** C1. When the plugin holds a table and a [load_csv] answers [False] (for
    whatever reason: a missing file, text the library rejects, an argument of
    a wrong kind), the table is still the one held before, and [get_data]
    after the failed load returns the same row views as [get_data] before it. *)
Theorem failed_load_keeps_table
  (pd : Pandas) (path : pyobj) (m m1 m2 m3 : machine pd) (df : DataFrame pd)
  (r1 r2 : outcome (option (list CSVRow))) :
  table m = Some df ->
  get_data pd m = (r1, m1) ->
  load_csv pd path m1 = (Return false, m2) ->
  get_data pd m2 = (r2, m3) ->
  table m2 = Some df /\ r2 = r1 /\
  r1 = Return (Some (row_views (to_dict_records pd df))).
Proof.
  intros Hdf Hg1 Hl Hg2.
  rewrite get_data_unfold in Hg1, Hg2.
  apply load_csv_false_table in Hl.
  inversion Hg1; subst m1 r1. inversion Hg2; subst m3 r2.
  rewrite Hl, Hdf. auto.
Qed.

Lemma failed_load_keeps_table_witness :
  table example_machine
  = Some {| columns := [("a", int64); ("b", object)];
            rows := [(0, [VInt 1; VStr "x"]); (1, [VInt 5; VStr "y"]);
                     (2, [VInt 10; VStr "z"])] |}
  /\ result (load_csv example_pandas (PyStr "missing.csv") example_machine) = Return false
  /\ table (after (load_csv example_pandas (PyStr "missing.csv") example_machine))
     = table example_machine
  /\ result (get_data example_pandas
               (after (load_csv example_pandas (PyStr "missing.csv") example_machine)))
     = result (get_data example_pandas example_machine).
Proof.
  pose proof
    (@failed_load_keeps_table example_pandas (PyStr "missing.csv")
       example_machine example_machine
       (after (load_csv example_pandas (PyStr "missing.csv") example_machine))
       (after (load_csv example_pandas (PyStr "missing.csv") example_machine))
       {| columns := [("a", int64); ("b", object)];
          rows := [(0, [VInt 1; VStr "x"]); (1, [VInt 5; VStr "y"]);
                   (2, [VInt 10; VStr "z"])] |}
       (result (get_data example_pandas example_machine))
       (result (get_data example_pandas
                  (after (load_csv example_pandas (PyStr "missing.csv") example_machine))))
       eq_refl eq_refl eq_refl eq_refl) as [Ht [Hr _]].
  split; [reflexivity|]. split; [reflexivity|]. split; [exact Ht | exact Hr].
Defined.

(** C2. [load_csv] always returns a boolean to its caller and never raises:
    [True] exactly when the source is of an accepted kind and the library
    parses it, [False] exactly when the kind is wrong or the library fails. *)
Theorem load_csv_returns_boolean (pd : Pandas) (path : pyobj) (m : machine pd) :
  exists b m',
    load_csv pd path m = (Return b, m') /\
    (b = true <-> parses_as_csv pd path) /\
    (b = false <-> fails_to_parse pd path).
Proof.
  rewrite load_csv_unfold. unfold parses_as_csv, fails_to_parse.
  destruct (isinstance_str_or_IOBase path) eqn:Hk.
  - destruct (read_csv pd path) as [df|e] eqn:Hr.
    + eexists true, _. split; [reflexivity|]. split; split; intros H.
      * split; [reflexivity | now exists df].
      * reflexivity.
      * discriminate.
      * destruct H as [H|[e H]]; discriminate.
    + eexists false, _. split; [reflexivity|]. split; split; intros H.
      * discriminate.
      * destruct H as [_ [df H]]; discriminate.
      * right. now exists e.
      * reflexivity.
  - eexists false, _. split; [reflexivity|]. split; split; intros H.
    + discriminate.
    + destruct H as [H _]; discriminate.
    + now left.
    + reflexivity.
Qed.

(** ** Reading *)

(** C3. After a successful load of a source that the library parses to a
    frame with N records, [get_data] returns exactly N row views, their
    indices are 0..N-1 in enumeration order, and their data mappings are the
    frame's records, in the frame's order. *)
Theorem get_data_after_load
  (pd : Pandas) (path : pyobj) (m : machine pd) (df : DataFrame pd) :
  isinstance_str_or_IOBase path = true ->
  read_csv pd path = Return df ->
  result (load_csv pd path m) = Return true /\
  exists views,
    result (get_data pd (after (load_csv pd path m))) = Return (Some views) /\
    List.length views = List.length (to_dict_records pd df) /\
    map index views = seq 0 (List.length (to_dict_records pd df)) /\
    map data views = to_dict_records pd df.
Proof.
  intros Hk Hr. rewrite load_csv_unfold, Hk, Hr. split; [reflexivity|].
  exists (row_views (to_dict_records pd df)).
  rewrite get_data_result. unfold after, table; simpl.
  split; [reflexivity|].
  split; [apply row_views_length|].
  split; [apply row_views_index | apply row_views_data].
Qed.

Lemma get_data_after_load_witness :
  result (load_csv example_pandas (PyStr "data.csv") (fresh example_pandas)) = Return true /\
  result (get_data example_pandas example_machine)
  = Return (Some [ {| index := 0; data := [("a", VInt 1); ("b", VStr "x")] |};
                   {| index := 1; data := [("a", VInt 5); ("b", VStr "y")] |};
                   {| index := 2; data := [("a", VInt 10); ("b", VStr "z")] |} ]).
Proof.
  destruct
    (@get_data_after_load example_pandas (PyStr "data.csv") (fresh example_pandas)
       {| columns := [("a", int64); ("b", object)];
          rows := [(0, [VInt 1; VStr "x"]); (1, [VInt 5; VStr "y"]);
                   (2, [VInt 10; VStr "z"])] |}
       eq_refl eq_refl) as [Hl _].
  split; [exact Hl | reflexivity].
Defined.

Lemma map_fst_combine {A B : Type} (l1 : list A) :
  forall (l2 : list B), List.length l1 = List.length l2 -> map fst (combine l1 l2) = l1.
Proof.
  induction l1 as [|a l1 IH]; intros [|b l2] H; simpl in *; try discriminate; [reflexivity|].
  f_equal. apply IH. now injection H.
Qed.

(** The concrete reader: text with a header line and N data lines of as
    many fields as the header gives a frame with the header's column names
    and N rows, labelled 0..N-1 in the order of the lines. *)
Lemma read_csv_text_rows (text header : string) (lines : list string) :
  csv_lines text = header :: lines ->
  Forall (fun l => List.length (csv_fields l) = List.length (csv_fields header)) lines ->
  exists df,
    read_csv_text text = Return df /\
    map fst (columns df) = csv_fields header /\
    List.length (records df) = List.length lines /\
    map fst (rows df) = seq 0 (List.length lines).
Proof.
  intros Hl Hf. unfold read_csv_text. rewrite Hl.
  assert (E : forallb (fun r => Nat.eqb (List.length r) (List.length (csv_fields header)))
                      (map csv_fields lines) = true).
  { apply forallb_forall. intros r Hr. apply in_map_iff in Hr.
    destruct Hr as [l [<- Hin]]. apply Nat.eqb_eq.
    rewrite Forall_forall in Hf. now apply Hf. }
  rewrite E. eexists. split; [reflexivity|]. simpl.
  split; [apply map_fst_combine; now rewrite length_map, length_seq|].
  unfold records, enumerate; simpl.
  rewrite length_map, <- (length_map fst), !enumerate_from_fst, length_seq, !length_map.
  split; reflexivity.
Qed.

Example read_csv_text_ragged :
  read_csv_text ("a,b" ++ newline ++ "1,x,9" ++ newline) = Raise ParserError.
Proof. reflexivity. Qed.

Example read_csv_text_empty : read_csv_text EmptyString = Raise EmptyDataError.
Proof. reflexivity. Qed.

(** A session in which no load answers [True] never assigns a table. *)
Lemma session_keeps_no_table (pd : Pandas) (rqs : list request) :
  forall (m : machine pd),
    table m = None ->
    no_successful_load (fst (session pd rqs m)) ->
    table (snd (session pd rqs m)) = None.
Proof.
  induction rqs as [|rq rqs IH]; intros m Hm Hno; simpl in *; [assumption|].
  destruct (serve pd rq m) as [r m'] eqn:Hs.
  destruct (session pd rqs m') as [rs m''] eqn:Hss.
  simpl in *.
  assert (Hm' : table m' = None).
  { destruct rq as [path| |c]; simpl in Hs.
    - destruct (load_csv pd path m) as [[b|e] mm] eqn:Hl; inversion Hs; subst.
      + destruct b.
        * exfalso. apply Hno. now left.
        * apply load_csv_false_table in Hl. congruence.
      + rewrite load_csv_unfold in Hl.
        destruct (isinstance_str_or_IOBase path);
          [destruct (read_csv pd path)|]; discriminate.
    - rewrite get_data_unfold in Hs. inversion Hs; subst. assumption.
    - pose proof (query_data_table pd c m) as Hq. unfold after in Hq.
      destruct (query_data pd c m) as [[rr|e] mm]; inversion Hs; subst;
        simpl in Hq; congruence. }
  specialize (IH m' Hm'). rewrite Hss in IH. simpl in IH. apply IH.
  intros Hin. apply Hno. now right.
Qed.

(** C5. As long as no [load_csv] has answered [True] since the plugin was
    created, [get_data] returns [None], and so does [query_data] for every
    condition string. *)
Theorem no_table_before_first_load
  (pd : Pandas) (rqs : list request) (condition : string) :
  no_successful_load (fst (session pd rqs (fresh pd))) ->
  result (get_data pd (snd (session pd rqs (fresh pd)))) = Return None /\
  result (query_data pd condition (snd (session pd rqs (fresh pd)))) = Return None.
Proof.
  intros Hno.
  pose proof (@session_keeps_no_table pd rqs (fresh pd) eq_refl Hno) as Ht.
  rewrite get_data_result, query_data_result, Ht. split; reflexivity.
Qed.

Lemma no_table_before_first_load_witness :
  no_successful_load
    (fst (session example_pandas
            [GetData; LoadCsv (PyStr "missing.csv"); QueryData "a > 4";
             LoadCsv (PyOther "<class 'int'>")]
            (fresh example_pandas))) /\
  result (get_data example_pandas
            (snd (session example_pandas
                    [GetData; LoadCsv (PyStr "missing.csv"); QueryData "a > 4";
                     LoadCsv (PyOther "<class 'int'>")]
                    (fresh example_pandas)))) = Return None /\
  result (query_data example_pandas "a > 4"
            (snd (session example_pandas
                    [GetData; LoadCsv (PyStr "missing.csv"); QueryData "a > 4";
                     LoadCsv (PyOther "<class 'int'>")]
                    (fresh example_pandas)))) = Return None.
Proof.
  assert (Hno : no_successful_load
    (fst (session example_pandas
            [GetData; LoadCsv (PyStr "missing.csv"); QueryData "a > 4";
             LoadCsv (PyOther "<class 'int'>")]
            (fresh example_pandas)))).
  { vm_compute. intros [H|[H|[H|[H|[]]]]]; discriminate. }
  split; [exact Hno|].
  exact (@no_table_before_first_load example_pandas _ "a > 4" Hno).
Defined.

(** C9. Neither [get_data] nor [query_data] assigns the stored table: for
    every machine and every condition string the [dataframe] attribute is the
    same after the call as before, and an operation made afterwards answers
    as it would have answered before. *)
Theorem reads_keep_table (pd : Pandas) (m : machine pd) (condition : string) :
  table (after (get_data pd m)) = table m /\
  table (after (query_data pd condition m)) = table m /\
  (forall c,
     result (get_data pd (after (query_data pd condition m))) = result (get_data pd m) /\
     result (query_data pd c (after (query_data pd condition m)))
     = result (query_data pd c m) /\
     result (query_data pd c (after (get_data pd m))) = result (query_data pd c m)).
Proof.
  pose proof (query_data_table pd condition m) as Hq.
  rewrite get_data_table. split; [reflexivity|]. split; [exact Hq|].
  intros c. rewrite !get_data_result, !query_data_result, Hq. auto.
Qed.

(** * The condition language *)

(** ** The parser does not depend on its fuel *)

Lemma parse_cmp_shorter (ts : list token) (e : expr) (r : list token) :
  parse_cmp ts = Some (e, r) -> List.length r < List.length ts.
Proof.
  unfold parse_cmp, parse_operand.
  destruct ts as [|t1 ts]; [discriminate|].
  destruct t1; try discriminate;
    (destruct ts as [|t2 ts]; [discriminate|]);
    (destruct t2; try discriminate);
    (destruct ts as [|t3 ts]; [discriminate|]);
    (destruct t3; try discriminate);
    intros H; inversion H; simpl; lia.
Qed.

(** A successful parse consumes at least one token. *)
Lemma parse_shorter (n : nat) :
  forall ts e r,
    (parse_not n ts = Some (e, r) -> List.length r < List.length ts) /\
    (parse_and n ts = Some (e, r) -> List.length r < List.length ts) /\
    (parse_or n ts = Some (e, r) -> List.length r < List.length ts).
Proof.
  induction n as [|n IH]; intros ts e r; [repeat split; discriminate|].
  assert (Hnot : forall e r, parse_not (S n) ts = Some (e, r) ->
                             List.length r < List.length ts).
  { clear e r. intros e r H. simpl in H.
    destruct ts as [|t ts']; [discriminate|].
    destruct t; try (apply parse_cmp_shorter in H; exact H).
    - destruct (parse_not n ts') as [[a r']|] eqn:E; [|discriminate].
      inversion H; subst. apply (IH ts' a r) in E. simpl. lia.
    - destruct (parse_or n ts') as [[a [|t r']]|] eqn:E; try discriminate.
      destruct t; try discriminate. inversion H; subst.
      apply (IH ts' e (TRParen :: r)) in E. simpl in *. lia. }
  assert (Hand : forall e r, parse_and (S n) ts = Some (e, r) ->
                             List.length r < List.length ts).
  { clear e r. intros e r H. simpl in H.
    destruct (parse_not n ts) as [[a rest]|] eqn:E; [|discriminate].
    apply (IH ts a rest) in E.
    destruct rest as [|t ts']; [inversion H; subst; exact E|].
    destruct t; try (inversion H; subst; exact E).
    destruct (parse_and n ts') as [[b r']|] eqn:E2; [|discriminate].
    inversion H; subst. apply (IH ts' b r) in E2. simpl in E. lia. }
  split; [apply Hnot|]. split; [apply Hand|].
  intros H. simpl in H.
  destruct (parse_and n ts) as [[a rest]|] eqn:E; [|discriminate].
  apply (IH ts a rest) in E.
  destruct rest as [|t ts']; [inversion H; subst; exact E|].
  destruct t; try (inversion H; subst; exact E).
  destruct (parse_or n ts') as [[b r']|] eqn:E2; [|discriminate].
  inversion H; subst. apply (IH ts' b r) in E2. simpl in E. lia.
Qed.

(** What some fuel parses, three units of fuel per token parse as well. *)
Lemma parse_fuel_enough (ts : list token) :
  (forall n res, parse_not n ts = Some res ->
     forall m, 3 * List.length ts + 1 <= m -> parse_not m ts = Some res) /\
  (forall n res, parse_and n ts = Some res ->
     forall m, 3 * List.length ts + 2 <= m -> parse_and m ts = Some res) /\
  (forall n res, parse_or n ts = Some res ->
     forall m, 3 * List.length ts + 3 <= m -> parse_or m ts = Some res).
Proof.
  induction ts as [ts IH] using (induction_ltof1 _ (@List.length token)).
  unfold ltof in IH.
  assert (Hnot : forall n res, parse_not n ts = Some res ->
            forall m, 3 * List.length ts + 1 <= m -> parse_not m ts = Some res).
  { intros [|n] res H [|m] Hm; try discriminate; [lia|]. simpl in *.
    destruct ts as [|t ts']; [exact H|].
    destruct t; try exact H.
    - destruct (parse_not n ts') as [[a r]|] eqn:E; [|discriminate].
      rewrite (proj1 (IH ts' (Nat.lt_succ_diag_r _)) n _ E m) by (simpl in Hm; lia).
      exact H.
    - destruct (parse_or n ts') as [[a r]|] eqn:E; [|discriminate].
      rewrite (proj2 (proj2 (IH ts' (Nat.lt_succ_diag_r _))) n _ E m)
        by (simpl in Hm; lia).
      exact H. }
  assert (Hand : forall n res, parse_and n ts = Some res ->
            forall m, 3 * List.length ts + 2 <= m -> parse_and m ts = Some res).
  { intros [|n] res H [|m] Hm; try discriminate; [lia|]. simpl in *.
    destruct (parse_not n ts) as [[a rest]|] eqn:E; [|discriminate].
    rewrite (Hnot n _ E m) by lia.
    pose proof (proj1 (parse_shorter n ts a rest) E) as Hlen.
    destruct rest as [|t ts']; [exact H|].
    destruct t; try exact H.
    destruct (parse_and n ts') as [[b r]|] eqn:E2; [|discriminate].
    simpl in Hlen.
    rewrite (proj1 (proj2 (IH ts' ltac:(lia))) n _ E2 m) by lia.
    exact H. }
  split; [exact Hnot|]. split; [exact Hand|].
  intros [|n] res H [|m] Hm; try discriminate; [lia|]. simpl in *.
  destruct (parse_and n ts) as [[a rest]|] eqn:E; [|discriminate].
  rewrite (Hand n _ E m) by lia.
  pose proof (proj1 (proj2 (parse_shorter n ts a rest)) E) as Hlen.
  destruct rest as [|t ts']; [exact H|].
  destruct t; try exact H.
  destruct (parse_or n ts') as [[b r]|] eqn:E2; [|discriminate].
  simpl in Hlen.
  rewrite (proj2 (proj2 (IH ts' ltac:(lia))) n _ E2 m) by lia.
  exact H.
Qed.

(** A token list that parses with some fuel parses with the fuel [parse]
    gives it: [parse] rejects a condition only for its syntax. *)
Lemma parse_fuel_independent (ts : list token) (n : nat) (e : expr) :
  parse_or n ts = Some (e, []) -> parse ts = Some e.
Proof.
  intros H. unfold parse.
  now rewrite (proj2 (proj2 (parse_fuel_enough ts)) n _ H (3 * List.length ts + 3)).
Qed.

(** ** Every condition is either malformed or well formed *)

Lemma operand_dtype_raise (cols : list (string * dtype)) (o : operand) (ex : PyException) :
  operand_dtype cols o = Raise ex -> exists name, mentions o name /\ find_column cols name = None.
Proof.
  destruct o as [name|z|m e|s]; simpl; try discriminate.
  destruct (find_column cols name) as [[i dt]|] eqn:E; [discriminate|].
  intros _. exists name. split; [reflexivity | exact E].
Qed.

Lemma check_raise (cols : list (string * dtype)) (e : expr) :
  forall ex, check cols e = Raise ex -> unknown_column cols e \/ type_mismatch cols e.
Proof.
  induction e as [op l r | a IHa b IHb | a IHa b IHb | a IHa]; intros ex H; simpl in H.
  - destruct (operand_dtype cols l) as [tl|exl] eqn:El.
    + destruct (operand_dtype cols r) as [tr|exr] eqn:Er.
      * right. apply tm_cmp with (tl := tl) (tr := tr); try assumption.
        destruct (comparable tl tr); [discriminate | reflexivity].
      * left. destruct (operand_dtype_raise cols r exr Er) as [name [Hm Hf]].
        now apply uc_right with (name := name).
    + left. destruct (operand_dtype_raise cols l exl El) as [name [Hm Hf]].
      now apply uc_left with (name := name).
  - destruct (check cols a) as [u|exa] eqn:Ea.
    + destruct (IHb ex H); [left; now apply uc_and_r | right; now apply tm_and_r].
    + destruct (IHa exa eq_refl); [left; now apply uc_and_l | right; now apply tm_and_l].
  - destruct (check cols a) as [u|exa] eqn:Ea.
    + destruct (IHb ex H); [left; now apply uc_or_r | right; now apply tm_or_r].
    + destruct (IHa exa eq_refl); [left; now apply uc_or_l | right; now apply tm_or_l].
  - destruct (IHa ex H); [left; now apply uc_not | right; now apply tm_not].
Qed.

Lemma condition_dichotomy (df : Frame) (c : string) :
  malformed df c \/ exists p, well_formed df c p.
Proof.
  unfold well_formed, compile.
  destruct (parse_condition c) as [e|] eqn:Ep; [|left; now apply bad_syntax].
  destruct (check (columns df) e) as [u|ex] eqn:Ec; [right; eauto|].
  left. destruct (check_raise (columns df) e ex Ec).
  - now apply bad_name with (e := e).
  - now apply bad_types with (e := e).
Qed.

(** * Properties of the plugin over the concrete library *)

Lemma query_data_never_raises (pd : Pandas) (c : string) (m : machine pd) :
  exists r, result (query_data pd c m) = Return r.
Proof. rewrite query_data_result. eauto. Qed.

(** What [query_data] answers when the condition is well formed. *)
Lemma query_data_well_formed
  (fs : filesystem) (m : machine (pandas fs)) (df : Frame) (c : string)
  (p : list value -> bool) :
  table m = Some df ->
  well_formed df c p ->
  query_data (pandas fs) c m = (Return (Some (row_views (records (select p df)))), m).
Proof.
  intros Ht Hw. rewrite query_data_unfold, Ht. simpl.
  unfold query_frame. unfold well_formed in Hw. now rewrite Hw.
Qed.

Lemma records_select (p : list value -> bool) (df : Frame) :
  records (select p df) = map (row_dict df) (filter (fun r => p (snd r)) (rows df)).
Proof. reflexivity. Qed.

(** ** Filtering *)

(** C4. For a stored table and a well-formed condition, [query_data]
    returns exactly the rows on which the condition evaluates to true, in the
    order they have in the table, and numbers them 0, 1, 2, ... by their
    position in the result, not by the position they had in the table. *)
Theorem query_data_stable_filter
  (fs : filesystem) (m : machine (pandas fs)) (df : Frame) (c : string)
  (p : list value -> bool) :
  table m = Some df ->
  well_formed df c p ->
  exists all views,
    result (get_data (pandas fs) m) = Return (Some all) /\
    map data all = map (row_dict df) (rows df) /\
    result (query_data (pandas fs) c m) = Return (Some views) /\
    map data views = map (row_dict df) (filter (fun r => p (snd r)) (rows df)) /\
    map index views = seq 0 (List.length views).
Proof.
  intros Ht Hw.
  exists (row_views (records df)), (row_views (records (select p df))).
  rewrite (@query_data_well_formed fs m df c p Ht Hw), get_data_result, Ht. simpl.
  split; [reflexivity|]. split; [apply row_views_data|].
  split; [reflexivity|]. split.
  - rewrite row_views_data. apply records_select.
  - rewrite row_views_length. apply row_views_index.
Qed.

Lemma query_data_stable_filter_witness :
  table example_machine = Some example_frame /\
  well_formed example_frame "a > 4"
    (holds (columns example_frame) (Cmp Gt (Col "a") (IntLit 4))) /\
  exists all views,
    result (get_data example_pandas example_machine) = Return (Some all) /\
    map data all = map (row_dict example_frame) (rows example_frame) /\
    result (query_data example_pandas "a > 4" example_machine) = Return (Some views) /\
    map data views
    = map (row_dict example_frame)
        (filter (fun r => holds (columns example_frame) (Cmp Gt (Col "a") (IntLit 4)) (snd r))
           (rows example_frame)) /\
    map index views = seq 0 (List.length views).
Proof.
  split; [reflexivity|]. split; [reflexivity|].
  apply (@query_data_stable_filter example_fs example_machine example_frame "a > 4");
    reflexivity.
Defined.

(** The example of the specification: the rows at positions 1 and 2 of the
    table are returned with indices 0 and 1. *)
Example query_example :
  result (query_data example_pandas "a > 4" example_machine)
  = Return (Some [ {| index := 0; data := [("a", VInt 5); ("b", VStr "y")] |};
                   {| index := 1; data := [("a", VInt 10); ("b", VStr "z")] |} ]) /\
  query_frame example_frame "a > 4"
  = Return {| columns := columns example_frame;
              rows := [(1, [VInt 5; VStr "y"]); (2, [VInt 10; VStr "z"])] |}.
Proof. split; reflexivity. Qed.

(** ** Conditions the library rejects *)

Lemma check_unknown_column (cols : list (string * dtype)) (e : expr) :
  unknown_column cols e -> exists ex, check cols e = Raise ex.
Proof.
  induction 1 as [op l r name Hm Hf | op l r name Hm Hf
                 | a b _ [ex IH] | a b _ [ex IH]
                 | a b _ [ex IH] | a b _ [ex IH] | a _ [ex IH]]; simpl.
  - unfold mentions in Hm; subst l. simpl. rewrite Hf. eauto.
  - unfold mentions in Hm; subst r.
    destruct (operand_dtype cols l); [|eauto]. simpl. rewrite Hf. eauto.
  - rewrite IH. eauto.
  - destruct (check cols a); eauto.
  - rewrite IH. eauto.
  - destruct (check cols a); eauto.
  - eauto.
Qed.

Lemma check_type_mismatch (cols : list (string * dtype)) (e : expr) :
  type_mismatch cols e -> exists ex, check cols e = Raise ex.
Proof.
  induction 1 as [op l r tl tr Hl Hr Hne
                 | a b _ [ex IH] | a b _ [ex IH]
                 | a b _ [ex IH] | a b _ [ex IH] | a _ [ex IH]]; simpl.
  - rewrite Hl, Hr, Hne. eauto.
  - rewrite IH. eauto.
  - destruct (check cols a); eauto.
  - rewrite IH. eauto.
  - destruct (check cols a); eauto.
  - eauto.
Qed.

(** The library raises on a malformed condition. *)
Lemma query_frame_malformed (df : Frame) (c : string) :
  malformed df c -> exists ex, query_frame df c = Raise ex.
Proof.
  unfold query_frame, compile.
  intros [Hs | e Hp Hu | e Hp Hm].
  - rewrite Hs. eauto.
  - rewrite Hp. destruct (check_unknown_column (columns df) e Hu) as [ex ->]. eauto.
  - rewrite Hp. destruct (check_type_mismatch (columns df) e Hm) as [ex ->]. eauto.
Qed.

(** C6. For a stored table and a malformed condition - one that does not
    parse, one that names a column the table does not have, or one that
    compares a number with a string - [query_data] returns [None] to its
    caller instead of raising, prints a diagnostic, and keeps the table. *)
Theorem malformed_condition_returns_none
  (fs : filesystem) (m : machine (pandas fs)) (df : Frame) (c : string) :
  table m = Some df ->
  malformed df c ->
  result (query_data (pandas fs) c m) = Return None /\
  table (after (query_data (pandas fs) c m)) = Some df /\
  exists line, stdout (after (query_data (pandas fs) c m)) = (stdout m ++ [line])%list.
Proof.
  intros Ht Hm.
  destruct (query_frame_malformed df c Hm) as [ex Hq].
  rewrite query_data_unfold, Ht. simpl. rewrite Hq. simpl.
  split; [reflexivity|]. split; [exact Ht|]. eauto.
Qed.

Lemma malformed_condition_returns_none_witness :
  table example_machine = Some example_frame /\
  malformed example_frame "a >" /\
  malformed example_frame "c > 4" /\
  malformed example_frame "a > 'x'" /\
  result (query_data example_pandas "a >" example_machine) = Return None /\
  result (query_data example_pandas "c > 4" example_machine) = Return None /\
  result (query_data example_pandas "a > 'x'" example_machine) = Return None.
Proof.
  assert (H1 : malformed example_frame "a >") by (apply bad_syntax; reflexivity).
  assert (H2 : malformed example_frame "c > 4").
  { apply bad_name with (e := Cmp Gt (Col "c") (IntLit 4)); [reflexivity|].
    apply uc_left with (name := "c"); reflexivity. }
  assert (H3 : malformed example_frame "a > 'x'").
  { apply bad_types with (e := Cmp Gt (Col "a") (StrLit "x")); [reflexivity|].
    apply tm_cmp with (tl := int64) (tr := object); reflexivity. }
  split; [reflexivity|]. split; [exact H1|]. split; [exact H2|]. split; [exact H3|].
  split; [|split].
  - exact (proj1 (@malformed_condition_returns_none example_fs example_machine
                    example_frame "a >" eq_refl H1)).
  - exact (proj1 (@malformed_condition_returns_none example_fs example_machine
                    example_frame "c > 4" eq_refl H2)).
  - exact (proj1 (@malformed_condition_returns_none example_fs example_machine
                    example_frame "a > 'x'" eq_refl H3)).
Defined.

(** ** Empty results *)

Lemma filter_none {A : Type} (p : A -> bool) (l : list A) :
  (forall x, In x l -> p x = false) -> filter p l = [].
Proof.
  induction l as [|x l IH]; intros H; simpl; [reflexivity|].
  rewrite (H x (or_introl eq_refl)). apply IH. intros y Hy. apply H. now right.
Qed.

(** C7. For a stored table and a well-formed condition that holds on no
    row, [query_data] returns the empty sequence, which is not the [None] it
    returns on failure. *)
Theorem no_match_returns_empty
  (fs : filesystem) (m : machine (pandas fs)) (df : Frame) (c : string)
  (p : list value -> bool) :
  table m = Some df ->
  well_formed df c p ->
  (forall r, In r (rows df) -> p (snd r) = false) ->
  result (query_data (pandas fs) c m) = Return (Some []) /\
  result (query_data (pandas fs) c m) <> Return None.
Proof.
  intros Ht Hw Hno.
  rewrite (@query_data_well_formed fs m df c p Ht Hw), records_select.
  rewrite (filter_none (fun r => p (snd r)) (rows df) Hno).
  split; [reflexivity | discriminate].
Qed.

Lemma no_match_returns_empty_witness :
  table example_machine = Some example_frame /\
  well_formed example_frame "a > 100"
    (holds (columns example_frame) (Cmp Gt (Col "a") (IntLit 100))) /\
  result (query_data example_pandas "a > 100" example_machine) = Return (Some []) /\
  result (query_data example_pandas "a > 100" example_machine) <> Return None.
Proof.
  split; [reflexivity|]. split; [reflexivity|].
  apply (@no_match_returns_empty example_fs example_machine example_frame "a > 100"
           (holds (columns example_frame) (Cmp Gt (Col "a") (IntLit 100))) eq_refl eq_refl).
  intros r [<-|[<-|[<-|[]]]]; reflexivity.
Defined.

(** ** Lexing a column name and an integer *)













(** *** Lexing a decimal literal *)













(** ** Frames read from CSV text are well typed *)










(** ** Splitting a list by a predicate and its complement *)


(** ** Thresholds on a numeric column *)




(** The two answers on the example of the specification: the rows with
    [a = 5] and [a = 10] on one side, the row with [a = 1] on the other, for
    the threshold 4 and for the threshold 4.5. *)
Example threshold_example :
  result (query_data example_pandas (gt_condition "a" (IntX 4)) example_machine)
  = Return (Some [ {| index := 0; data := [("a", VInt 5); ("b", VStr "y")] |};
                   {| index := 1; data := [("a", VInt 10); ("b", VStr "z")] |} ]) /\
  result (query_data example_pandas (le_condition "a" (IntX 4)) example_machine)
  = Return (Some [ {| index := 0; data := [("a", VInt 1); ("b", VStr "x")] |} ]) /\
  gt_condition "a" (FloatX false (D4 Nil) (Some (D5 Nil)) None) = "a > 4.5" /\
  result (query_data example_pandas "a > 4.5" example_machine)
  = Return (Some [ {| index := 0; data := [("a", VInt 5); ("b", VStr "y")] |};
                   {| index := 1; data := [("a", VInt 10); ("b", VStr "z")] |} ]) /\
  result (query_data example_pandas "a <= 4.5" example_machine)
  = Return (Some [ {| index := 0; data := [("a", VInt 1); ("b", VStr "x")] |} ]).
Proof. repeat split; reflexivity. Qed.

(** An integer column beyond 64 bits is kept as strings, and is then not a
    numeric column. *)
Example wide_integers_are_strings :
  read_csv_text ("a" ++ newline ++ "18446744073709551615" ++ newline ++ "-1" ++ newline)
  = Return {| columns := [("a", object)];
              rows := [(0, [VStr "18446744073709551615"]); (1, [VStr "-1"])] |}.
Proof. reflexivity. Qed.


(** * Sessions *)

Lemma session_cons (pd : Pandas) (rq : request) (rqs : list request) (m : machine pd) :
  session pd (rq :: rqs) m
  = (fst (serve pd rq m) :: fst (session pd rqs (snd (serve pd rq m))),
     snd (session pd rqs (snd (serve pd rq m)))).
Proof.
  simpl. destruct (serve pd rq m) as [r m']. simpl.
  destruct (session pd rqs m') as [rs m'']. reflexivity.
Qed.

Lemma session_app (pd : Pandas) (rqs1 rqs2 : list request) :
  forall m : machine pd,
    session pd (rqs1 ++ rqs2) m
    = ((fst (session pd rqs1 m) ++ fst (session pd rqs2 (snd (session pd rqs1 m))))%list,
       snd (session pd rqs2 (snd (session pd rqs1 m)))).
Proof.
  induction rqs1 as [|rq rqs1 IH]; intros m.
  - simpl. now destruct (session pd rqs2 m).
  - rewrite <- app_comm_cons, !session_cons, IH. reflexivity.
Qed.

Lemma prefix_append (s t : string) : String.prefix s (s ++ t) = true.
Proof.
  induction s as [|a s IH]; simpl; [now destruct t|].
  destruct (ascii_dec a a); [exact IH | contradiction].
Qed.

(** What one request does, operation by operation. *)
Lemma serve_load (pd : Pandas) (path : pyobj) (m : machine pd) :
  (parses_as_csv pd path /\
   exists df, read_csv pd path = Return df /\
     serve pd (LoadCsv path) m
     = (Loaded true, {| self := {| dataframe := Some df |}; stdout := stdout m |})) \/
  (fails_to_parse pd path /\
   exists line, is_load_diagnostic line = true /\
     serve pd (LoadCsv path) m
     = (Loaded false, {| self := self m; stdout := (stdout m ++ [line])%list |})).
Proof.
  unfold serve, parses_as_csv, fails_to_parse. rewrite load_csv_unfold.
  destruct (isinstance_str_or_IOBase path).
  - destruct (read_csv pd path) as [df|e].
    + left. split; [split; eauto|]. eauto.
    + right. split; [right; eauto|]. eexists. split; [|reflexivity].
      apply prefix_append.
  - right. split; [now left|]. eexists. split; [|reflexivity].
    reflexivity.
Qed.

Lemma serve_get (pd : Pandas) (m : machine pd) :
  serve pd GetData m
  = (Rows (option_map (fun df => row_views (to_dict_records pd df)) (table m)), m).
Proof. unfold serve. now rewrite get_data_unfold. Qed.

Lemma serve_query (pd : Pandas) (c : string) (m : machine pd) :
  (exists r, serve pd (QueryData c) m = (Rows r, m)) \/
  (exists line, is_query_diagnostic line = true /\ is_load_diagnostic line = false /\
     serve pd (QueryData c) m
     = (Rows None, {| self := self m; stdout := (stdout m ++ [line])%list |})).
Proof.
  unfold serve. rewrite query_data_unfold.
  destruct (table m) as [df|]; [|left; eauto].
  destruct (query pd df c) as [q|e]; [left; eauto|].
  right. eexists. split; [|split; [|reflexivity]].
  - apply prefix_append.
  - reflexivity.
Qed.

(** X1. An exception raised by [read_csv] or by [query] never reaches the
    caller: in every session, whether these two calls return or raise, each
    request is answered by a response of its own kind, a boolean for
    [load_csv] and rows or [None] for [query_data]; [get_data], whose call
    of [to_dict] stands outside any [try], answers with rows or [None]
    whenever that call returns, as the library's interface has it do. *)
Theorem session_never_faults (pd : Pandas) (rqs : list request) :
  forall m : machine pd, Forall2 answers rqs (fst (session pd rqs m)).
Proof.
  induction rqs as [|rq rqs IH]; intros m; [constructor|].
  rewrite session_cons. simpl. constructor; [|apply IH].
  destruct rq as [path| |c].
  - destruct (serve_load pd path m) as [[_ [df [_ ->]]]|[_ [line [_ ->]]]]; exact I.
  - rewrite serve_get. exact I.
  - destruct (serve_query pd c m) as [[r ->]|[line [_ [_ ->]]]]; exact I.
Qed.

Lemma parses_not_fails (pd : Pandas) (path : pyobj) :
  parses_as_csv pd path -> fails_to_parse pd path -> False.
Proof.
  intros [Hk [df Hr]] [Hk'|[e Hr']]; congruence.
Qed.

(** One request either keeps the table or is a load that parsed a new one. *)
Lemma serve_table (pd : Pandas) (rq : request) (m : machine pd) :
  table (snd (serve pd rq m)) = table m \/
  exists path df,
    rq = LoadCsv path /\ parses_as_csv pd path /\ read_csv pd path = Return df /\
    table (snd (serve pd rq m)) = Some df.
Proof.
  destruct rq as [path| |c].
  - destruct (serve_load pd path m) as [[Hp [df [Hr ->]]]|[_ [line [_ ->]]]].
    + right. exists path, df. auto.
    + now left.
  - rewrite serve_get. now left.
  - destruct (serve_query pd c m) as [[r ->]|[line [_ [_ ->]]]]; now left.
Qed.

(** X2. Once the plugin holds a table it holds one for ever: no request,
    failed or not, sets [self.dataframe] back to [None], so after any further
    session [get_data] does not answer [None]. *)
Theorem table_never_cleared (pd : Pandas) (rqs : list request) :
  forall m : machine pd,
    table m <> None ->
    table (snd (session pd rqs m)) <> None /\
    result (get_data pd (snd (session pd rqs m))) <> Return None.
Proof.
  assert (H : forall m : machine pd,
             table m <> None -> table (snd (session pd rqs m)) <> None).
  { induction rqs as [|rq rqs IH]; intros m Hm; [exact Hm|].
    rewrite session_cons. simpl. apply IH.
    destruct (serve_table pd rq m) as [->|[path [df [_ [_ [_ ->]]]]]];
      [exact Hm | discriminate]. }
  intros m Hm. specialize (H m Hm). split; [exact H|].
  rewrite get_data_result.
  destruct (table (snd (session pd rqs m))); [discriminate | contradiction].
Qed.

Lemma table_never_cleared_witness :
  table example_machine <> None /\
  table (snd (session example_pandas
                [LoadCsv (PyStr "missing.csv"); QueryData "a >";
                 LoadCsv (PyOther "<class 'int'>")]
                example_machine)) <> None /\
  result (get_data example_pandas
            (snd (session example_pandas
                    [LoadCsv (PyStr "missing.csv"); QueryData "a >";
                     LoadCsv (PyOther "<class 'int'>")]
                    example_machine))) <> Return None.
Proof.
  assert (H : table example_machine <> None) by discriminate.
  split; [exact H|].
  exact (@table_never_cleared example_pandas
           [LoadCsv (PyStr "missing.csv"); QueryData "a >";
            LoadCsv (PyOther "<class 'int'>")]
           example_machine H).
Defined.

(** Requests among which no load can succeed leave the table alone. *)
Lemma unsuccessful_loads_preserve_table (pd : Pandas) (rqs : list request) :
  forall m : machine pd,
    (forall path, In (LoadCsv path) rqs -> fails_to_parse pd path) ->
    table (snd (session pd rqs m)) = table m.
Proof.
  induction rqs as [|rq rqs IH]; intros m H; [reflexivity|].
  rewrite session_cons. simpl.
  rewrite IH by (intros path Hin; apply H; now right).
  destruct (serve_table pd rq m) as [E|[path [df [-> [Hp _]]]]]; [exact E|].
  exfalso. apply (parses_not_fails pd path Hp). apply H. now left.
Qed.

(** X3. The last load that succeeded decides what the plugin holds: after a
    session in which a load parsed a frame and every later load failed, the
    plugin holds exactly that frame, whatever it held before and whatever
    reads and failed loads came in between, and [get_data] returns its rows. *)
Theorem last_successful_load_wins
  (pd : Pandas) (earlier later : list request) (path : pyobj) (df : DataFrame pd)
  (m : machine pd) :
  isinstance_str_or_IOBase path = true ->
  read_csv pd path = Return df ->
  (forall path', In (LoadCsv path') later -> fails_to_parse pd path') ->
  table (snd (session pd (earlier ++ LoadCsv path :: later) m)) = Some df /\
  result (get_data pd (snd (session pd (earlier ++ LoadCsv path :: later) m)))
  = Return (Some (row_views (to_dict_records pd df))).
Proof.
  intros Hk Hr Hlater.
  assert (Ht : table (snd (session pd (earlier ++ LoadCsv path :: later) m)) = Some df).
  { rewrite session_app, session_cons. cbn [snd].
    rewrite (unsuccessful_loads_preserve_table pd later _ Hlater).
    unfold serve. rewrite load_csv_unfold, Hk, Hr. reflexivity. }
  split; [exact Ht|]. now rewrite get_data_result, Ht.
Qed.

Lemma last_successful_load_wins_witness :
  table (snd (session (pandas diabetes_fs)
                ([LoadCsv (PyStr "missing.csv"); GetData]
                 ++ LoadCsv (PyStr "diabetes.csv")
                 :: [QueryData "Age > 50"; LoadCsv (PyOther "<class 'int'>");
                     LoadCsv (PyStr "missing.csv"); GetData])
                (fresh (pandas diabetes_fs)))) = Some diabetes_frame.
Proof.
  refine (proj1 (@last_successful_load_wins (pandas diabetes_fs)
                   [LoadCsv (PyStr "missing.csv"); GetData]
                   [QueryData "Age > 50"; LoadCsv (PyOther "<class 'int'>");
                    LoadCsv (PyStr "missing.csv"); GetData]
                   (PyStr "diabetes.csv") diabetes_frame (fresh (pandas diabetes_fs))
                   eq_refl eq_refl _)).
  intros path' [H|[H|[H|[H|[]]]]]; inversion H; subst.
  - left. reflexivity.
  - right. eexists. reflexivity.
Defined.

(** ** The output channel *)

(** What one request prints: nothing, or one line of the kind that goes with
    the failure. *)
Lemma serve_stdout (pd : Pandas) (rq : request) (m : machine pd) :
  (stdout (snd (serve pd rq m)) = stdout m /\ is_failed_load (fst (serve pd rq m)) = false) \/
  (exists line,
     stdout (snd (serve pd rq m)) = (stdout m ++ [line])%list /\
     is_diagnostic line = true /\
     is_load_diagnostic line = is_failed_load (fst (serve pd rq m))).
Proof.
  destruct rq as [path| |c].
  - destruct (serve_load pd path m) as [[_ [df [_ ->]]]|[_ [line [Hl ->]]]].
    + left. split; reflexivity.
    + right. exists line. simpl. unfold is_diagnostic. rewrite Hl. auto.
  - rewrite serve_get. left. split; reflexivity.
  - destruct (serve_query pd c m) as [[r ->]|[line [Hq [Hl ->]]]].
    + left. split; reflexivity.
    + right. exists line. simpl. unfold is_diagnostic. rewrite Hl, Hq. auto.
Qed.

(** X4. The output channel only grows, by diagnostics: over any session the
    plugin adds [print] calls after what was printed before and changes none
    of it; the text of every call it adds starts with [Error loading CSV: ]
    or with [Error querying data: ]; there is exactly one call of the first
    kind per [load_csv] that answered [False]; and no request makes more
    than one [print] call. *)
Theorem session_diagnostics (pd : Pandas) (rqs : list request) :
  forall m : machine pd,
  exists printed,
    stdout (snd (session pd rqs m)) = (stdout m ++ printed)%list /\
    Forall (fun text => is_diagnostic text = true) printed /\
    List.length (filter is_load_diagnostic printed)
    = List.length (filter is_failed_load (fst (session pd rqs m))) /\
    List.length printed <= List.length rqs.
Proof.
  induction rqs as [|rq rqs IH]; intros m.
  - exists []. simpl. rewrite List.app_nil_r. repeat split; auto.
  - rewrite session_cons. cbn [fst snd].
    destruct (IH (snd (serve pd rq m))) as [printed [Hs [Hd [Hc Hn]]]].
    destruct (serve_stdout pd rq m) as [[Hsame Hf]|[text [Htext [Hdiag Hload]]]].
    + exists printed. rewrite Hs, Hsame. cbn [filter]. rewrite Hf.
      repeat split; auto. simpl. lia.
    + exists (text :: printed). rewrite Hs, Htext, <- List.app_assoc. cbn [filter].
      rewrite Hload.
      split; [reflexivity|]. split; [now constructor|].
      split; [|simpl; lia].
      destruct (is_failed_load (fst (serve pd rq m))); simpl; now rewrite Hc.
Qed.

(** ** Reads between loads *)

(** The answer to a request and the table it leaves depend on the table only. *)
Lemma serve_table_only (pd : Pandas) (rq : request) (m1 m2 : machine pd) :
  table m1 = table m2 ->
  fst (serve pd rq m1) = fst (serve pd rq m2) /\
  table (snd (serve pd rq m1)) = table (snd (serve pd rq m2)).
Proof.
  intros H. destruct rq as [path| |c]; unfold serve.
  - rewrite !load_csv_unfold.
    destruct (isinstance_str_or_IOBase path); [destruct (read_csv pd path)|];
      simpl; auto.
  - rewrite !get_data_unfold, H. auto.
  - rewrite !query_data_unfold, <- H.
    destruct (table m1) as [df|] eqn:E; [|simpl; split; congruence].
    destruct (query pd df c); simpl; split; auto; unfold table in *; simpl; congruence.
Qed.

Lemma session_table_only (pd : Pandas) (rqs : list request) :
  forall m1 m2 : machine pd,
    table m1 = table m2 ->
    fst (session pd rqs m1) = fst (session pd rqs m2) /\
    table (snd (session pd rqs m1)) = table (snd (session pd rqs m2)).
Proof.
  induction rqs as [|rq rqs IH]; intros m1 m2 H; [simpl; auto|].
  rewrite !session_cons. cbn [fst snd].
  destruct (serve_table_only pd rq m1 m2 H) as [Hr Ht].
  destruct (IH _ _ Ht) as [Hrs Hts]. rewrite Hr, Hrs. auto.
Qed.

(** X5. Reads do not interfere with loads: taking the [get_data] and
    [query_data] requests out of a session changes neither the answers its
    [load_csv] requests get nor the table the plugin holds at the end. *)
Theorem reads_can_be_dropped (pd : Pandas) (rqs : list request) :
  forall m : machine pd,
    filter is_load_response (fst (session pd rqs m))
    = fst (session pd (filter is_load_request rqs) m) /\
    table (snd (session pd rqs m))
    = table (snd (session pd (filter is_load_request rqs) m)).
Proof.
  induction rqs as [|rq rqs IH]; intros m; [simpl; auto|].
  rewrite session_cons. cbn [fst snd filter].
  destruct rq as [path| |c]; cbn [is_load_request].
  - rewrite session_cons. cbn [fst snd].
    destruct (IH (snd (serve pd (LoadCsv path) m))) as [Hr Ht].
    destruct (serve_load pd path m) as [[_ [df [_ E]]]|[_ [line [_ E]]]];
      rewrite E in *; cbn [fst snd is_load_response] in *; rewrite Hr, Ht; auto.
  - rewrite serve_get. cbn [fst snd is_load_response]. apply IH.
  - destruct (IH m) as [Hr Ht].
    assert (Hq : table (snd (serve pd (QueryData c) m)) = table m).
    { destruct (serve_query pd c m) as [[r ->]|[line [_ [_ ->]]]]; reflexivity. }
    destruct (session_table_only pd rqs _ _ Hq) as [Hrs Hts].
    assert (Hk : is_load_response (fst (serve pd (QueryData c) m)) = false).
    { destruct (serve_query pd c m) as [[r ->]|[line [_ [_ ->]]]]; reflexivity. }
    rewrite Hk, Hrs, Hts. auto.
Qed.

(** ** Row views *)

Lemma nth_error_enumerate_from {A : Type} (l : list A) :
  forall n i,
    nth_error (enumerate_from n l) i = option_map (fun x => (n + i, x)) (nth_error l i).
Proof.
  induction l as [|a l IH]; intros n [|i]; simpl; try reflexivity.
  - now rewrite Nat.add_0_r.
  - rewrite IH. destruct (nth_error l i); simpl; [|reflexivity].
    now rewrite Nat.add_succ_r.
Qed.

Lemma nth_error_row_views (recs : list dict) (i : nat) :
  nth_error (row_views recs) i
  = option_map (fun r => {| index := i; data := r |}) (nth_error recs i).
Proof.
  unfold row_views, enumerate.
  rewrite nth_error_map, nth_error_enumerate_from.
  destruct (nth_error recs i); reflexivity.
Qed.

(** X6. In every list that [get_data] or [query_data] returns, for every
    library, the [index] of a row view is the position the row view has in
    that list. *)
Theorem row_view_index_is_position
  (pd : Pandas) (m : machine pd) (c : string) (views : list CSVRow) (i : nat) (v : CSVRow) :
  result (get_data pd m) = Return (Some views) \/
  result (query_data pd c m) = Return (Some views) ->
  nth_error views i = Some v ->
  index v = i.
Proof.
  intros H Hv.
  assert (Hrv : exists recs, views = row_views recs).
  { destruct H as [H|H].
    - rewrite get_data_result in H. destruct (table m) as [df|]; [|discriminate].
      simpl in H. inversion H. eauto.
    - rewrite query_data_result in H. destruct (table m) as [df|]; [|discriminate].
      destruct (query pd df c) as [q|e]; [|discriminate]. inversion H. eauto. }
  destruct Hrv as [recs ->]. rewrite nth_error_row_views in Hv.
  destruct (nth_error recs i); [|discriminate]. simpl in Hv. now inversion Hv.
Qed.

Lemma row_view_index_is_position_witness :
  nth_error [ {| index := 0; data := [("a", VInt 5); ("b", VStr "y")] |};
              {| index := 1; data := [("a", VInt 10); ("b", VStr "z")] |} ] 1
  = Some {| index := 1; data := [("a", VInt 10); ("b", VStr "z")] |} /\
  index {| index := 1; data := [("a", VInt 10); ("b", VStr "z")] |} = 1.
Proof.
  split; [reflexivity|].
  exact (@row_view_index_is_position example_pandas example_machine "a > 4"
           [ {| index := 0; data := [("a", VInt 5); ("b", VStr "y")] |};
             {| index := 1; data := [("a", VInt 10); ("b", VStr "z")] |} ]
           1 {| index := 1; data := [("a", VInt 10); ("b", VStr "z")] |}
           (or_intror eq_refl) eq_refl).
Defined.

(** ** The two reasons for [None] *)

Lemma app_one_neq {A : Type} (l : list A) (x : A) : (l ++ [x])%list <> l.
Proof.
  intros H. apply (f_equal (@List.length A)) in H.
  rewrite length_app in H. simpl in H. lia.
Qed.

(** X7. [query_data] answers [None] in two situations which its caller
    cannot tell apart but the output channel can.  When it answers [None]:
    nothing was printed exactly when the plugin holds no table; and with a
    table held, exactly one [print] call was made, whose text is
    [Error querying data: ] followed by the text of the exception the
    library raised on the condition. *)
Theorem query_none_silent_iff_no_table (pd : Pandas) (c : string) (m : machine pd) :
  result (query_data pd c m) = Return None ->
  (stdout (after (query_data pd c m)) = stdout m <-> table m = None) /\
  (forall df, table m = Some df ->
     exists e, query pd df c = Raise e /\
       stdout (after (query_data pd c m))
       = (stdout m ++ [("Error querying data: " ++ exc_str e)%string])%list).
Proof.
  rewrite query_data_unfold. unfold result, after.
  destruct (table m) as [df|].
  - destruct (query pd df c) as [q|e] eqn:Eq; simpl; [discriminate|].
    intros _. split.
    + split; [|discriminate]. intros H. exfalso. exact (app_one_neq _ _ H).
    + intros df' Hdf. inversion Hdf; subst df'. exists e. split; [exact Eq | reflexivity].
  - simpl. intros _. split; [split; reflexivity|]. intros df Hdf. discriminate.
Qed.

Lemma query_none_silent_iff_no_table_witness :
  result (query_data example_pandas "c > 4" example_machine) = Return None /\
  table example_machine <> None /\
  stdout (after (query_data example_pandas "c > 4" example_machine))
  = (stdout example_machine ++ ["Error querying data: name 'c' is not defined"])%list.
Proof.
  split; [reflexivity|]. split; [discriminate|].
  destruct (proj2 (@query_none_silent_iff_no_table example_pandas "c > 4"
                     example_machine eq_refl) example_frame eq_refl) as [e [He Hs]].
  rewrite Hs. inversion He. reflexivity.
Defined.

(** ** The driver *)

Lemma main_unfold (pd : Pandas) (repr_rows : list CSVRow -> string) (m : machine pd) :
  main pd repr_rows m =
  match read_csv pd (PyStr "diabetes.csv") with
  | Raise e =>
      (Return tt,
       {| self := init pd;
          stdout := (stdout m ++ [("Error loading CSV: " ++ exc_str e)%string; "None"])%list |})
  | Return df =>
      match query pd df "Age > 50" with
      | Return q =>
          (Return tt,
           {| self := {| dataframe := Some df |};
              stdout := (stdout m ++ [repr_rows (row_views (to_dict_records pd q))])%list |})
      | Raise e =>
          (Return tt,
           {| self := {| dataframe := Some df |};
              stdout := (stdout m ++ [("Error querying data: " ++ exc_str e)%string; "None"])%list |})
      end
  end.
Proof.
  unfold main, bind at 1 2 3.
  rewrite load_csv_unfold. simpl isinstance_str_or_IOBase. cbn iota.
  destruct (read_csv pd (PyStr "diabetes.csv")) as [df|e].
  - rewrite get_data_unfold, query_data_unfold. unfold table. cbn [self dataframe].
    destruct (query pd df "Age > 50") as [q|e]; unfold print; simpl.
    + reflexivity.
    + now rewrite <- List.app_assoc.
  - rewrite get_data_unfold, query_data_unfold. unfold table. simpl.
    unfold print. simpl. now rewrite <- List.app_assoc.
Qed.

(** X8. The driver does not look at what [load_csv] answers: when
    [diabetes.csv] cannot be read it carries on, both reads answer [None],
    and it ends normally having printed the load diagnostic followed by
    [None], with a plugin that holds no table. *)
Theorem main_without_file
  (pd : Pandas) (repr_rows : list CSVRow -> string) (m : machine pd) (e : PyException) :
  read_csv pd (PyStr "diabetes.csv") = Raise e ->
  main pd repr_rows m
  = (Return tt,
     {| self := init pd;
        stdout := (stdout m ++ [("Error loading CSV: " ++ exc_str e)%string; "None"])%list |}).
Proof. intros H. now rewrite main_unfold, H. Qed.

Lemma main_without_file_witness :
  main example_pandas repr_views (fresh example_pandas)
  = (Return tt,
     {| self := init example_pandas;
        stdout := ["Error loading CSV: [Errno 2] No such file or directory: 'diabetes.csv'";
                   "None"] |}).
Proof.
  exact (@main_without_file example_pandas repr_views (fresh example_pandas)
           (FileNotFoundError "diabetes.csv") eq_refl).
Defined.

(** X9. When [diabetes.csv] loads, the driver prints one thing only, the
    answer to ["Age > 50"]: the rows the library selected, re-indexed, when
    the query succeeds, and the query diagnostic followed by [None] when the
    library rejects the condition (a table without an [Age] column, say);
    the rows of [get_data] are fetched but not printed.  Either way it ends
    normally with the loaded table held. *)
Theorem main_with_file
  (pd : Pandas) (repr_rows : list CSVRow -> string) (m : machine pd) (df : DataFrame pd) :
  read_csv pd (PyStr "diabetes.csv") = Return df ->
  main pd repr_rows m
  = (Return tt,
     {| self := {| dataframe := Some df |};
        stdout := (stdout m ++
                   match query pd df "Age > 50" with
                   | Return q => [repr_rows (row_views (to_dict_records pd q))]
                   | Raise e => [("Error querying data: " ++ exc_str e)%string; "None"]
                   end)%list |}).
Proof.
  intros H. rewrite main_unfold, H. now destruct (query pd df "Age > 50").
Qed.

Lemma main_with_file_witness :
  main (pandas diabetes_fs) repr_views (fresh (pandas diabetes_fs))
  = (Return tt,
     @Build_machine (pandas diabetes_fs)
       (@Build_CSVPlugin (pandas diabetes_fs) (Some diabetes_frame))
       [repr_views [ {| index := 0; data := [("Age", VInt 51); ("Outcome", VInt 0)] |};
                     {| index := 1; data := [("Age", VInt 63); ("Outcome", VInt 1)] |} ]]).
Proof.
  exact (@main_with_file (pandas diabetes_fs) repr_views (fresh (pandas diabetes_fs))
           diabetes_frame eq_refl).
Defined.

(** X10. An exception raised by [read_csv] or by [query] does not make the
    driver raise: whether these calls return or raise, and with [to_dict]
    returning as the library's interface has it do, the driver ends
    normally, having made one or two [print] calls after what was printed
    before; and since it makes its own plugin, what it does is the same
    whatever plugin state it is started from. *)
Theorem main_never_raises
  (pd : Pandas) (repr_rows : list CSVRow -> string) (m : machine pd) :
  (exists plugin printed,
     main pd repr_rows m
     = (Return tt, {| self := plugin; stdout := (stdout m ++ printed)%list |}) /\
     1 <= List.length printed <= 2) /\
  (forall plugin',
     main pd repr_rows {| self := plugin'; stdout := stdout m |} = main pd repr_rows m).
Proof.
  split.
  - rewrite main_unfold.
    destruct (read_csv pd (PyStr "diabetes.csv")) as [df|e].
    + destruct (query pd df "Age > 50") as [q|e];
        eexists _, _; (split; [reflexivity | simpl; lia]).
    + eexists _, _; (split; [reflexivity | simpl; lia]).
  - intros plugin'. now rewrite !main_unfold.
Qed.
